(** * download_facenet.py: a shallow embedding and its properties

    The repository is one Python script, [download_facenet.py].  It creates
    the directory [assets/models], downloads one file into it with
    [urllib.request.urlretrieve] while a progress callback prints a line per
    block, and reports the outcome on the console.

    The embedding has three layers:
    - Python's numbers as the script uses them ([PyNum]): unbounded [int] as
      [Z], [float] as IEEE 754 binary64 through the standard library's
      [SpecFloat] ([prec = 53], [emax = 1024]), with [int / int] true
      division, [float * int] and the [.Nf] format specifier;
    - the environment ([Env]): a file-system tree below the working
      directory, the answer of the remote server, and standard output with
      its encoding, threaded through a state-and-exception monad that also
      records the trace of calls; [os.makedirs], [os.path.getsize],
      [urlretrieve] and [print] follow the library's documented behaviour;
    - the script itself ([Script]), statement by statement.

    Then come the vocabulary of the properties ([Report], [ProgressSpec],
    [Rounding], [Samples]), the lemmas on the file system, on rounding and
    on the script ([EnvFacts], [RoundingFacts], [NumberFacts],
    [TextFacts], [ScriptFacts], [EffectFacts]) and the properties
    themselves ([ErrorHandling], [Directory], [Overwrite], [Ordering],
    [Progress], [ProgressOrder], [RunEffects], [RunConsole]).

    Scope: [print] raises [UnicodeEncodeError] for text that standard
    output cannot encode, and nothing else (the stream stays open);
    asynchronous interrupts ([KeyboardInterrupt], [SystemExit]) are not
    modelled, so every exception of the model is an instance of Python's
    [Exception]; the file system is a case-sensitive tree without links,
    and paths are relative POSIX paths without [.] and [..]. *)

From Stdlib Require Import ZArith List String Ascii Bool Lia.
From Stdlib Require Import SpecFloat.
Import ListNotations.

Local Open Scope string_scope.
Local Open Scope Z_scope.

(** ** Exceptions and results *)

Inductive exn_class :=
| ZeroDivisionError
| OverflowError
| FileExistsError
| FileNotFoundError
| NotADirectoryError
| IsADirectoryError
| URLError
| HTTPError
| ContentTooShortError
| OSError
| UnicodeEncodeError.

(** An exception carries its class and the text that [str(e)] gives. *)
Record exn := mk_exn { exn_cls : exn_class; exn_text : string }.

Inductive result (A : Type) :=
| Ret (a : A)
| Raise (e : exn).
Arguments Ret {A} a.
Arguments Raise {A} e.

Definition rbind {A B} (r : result A) (k : A -> result B) : result B :=
  match r with
  | Ret a => k a
  | Raise e => Raise e
  end.

(** ** Python numbers *)

Module PyNum.

Definition prec : Z := 53.
Definition emax : Z := 1024.

Definition float := spec_float.

Inductive pyval :=
| PyInt (z : Z)
| PyFloat (f : float).

(** An integer as an exact, not yet rounded, binary number. *)
Definition exact_of_int (a : Z) : float :=
  match a with
  | Z0 => S754_zero false
  | Zpos p => S754_finite false p 0
  | Zneg p => S754_finite true p 0
  end.

(** A rounded result that is infinite is an [OverflowError]. *)
Definition overflow_check (text : string) (f : float) : result float :=
  match f with
  | S754_infinity _ => Raise (mk_exn OverflowError text)
  | _ => Ret f
  end.

(** [a / b] on two [int]s: the correctly rounded quotient; a zero divisor
    raises [ZeroDivisionError], a quotient that rounds beyond the largest
    float raises [OverflowError]. *)
Definition int_truediv (a b : Z) : result float :=
  if b =? 0 then Raise (mk_exn ZeroDivisionError "division by zero")
  else
    overflow_check "integer division result too large for a float"
      (SFdiv prec emax (exact_of_int a) (exact_of_int b)).

(** [float(n)] for an [int] operand of a mixed operation. *)
Definition float_of_int (n : Z) : result float :=
  overflow_check "int too large to convert to float"
    (binary_normalize prec emax n 0 false).

(** [x * n] with [x] a float and [n] an int: [n] is converted, then the
    floats are multiplied; float multiplication itself never raises. *)
Definition float_mul_int (x : float) (n : Z) : result float :=
  rbind (float_of_int n) (fun y => Ret (SFmul prec emax x y)).

(** The float a number stands for where a float is wanted. *)
Definition float_of_pyval (v : pyval) : result float :=
  match v with
  | PyInt z => float_of_int z
  | PyFloat f => Ret f
  end.

Definition float_leb (x y : float) : bool := SFleb x y.
Definition float_ltb (x y : float) : bool := SFltb x y.

(** [v <= w] for two numbers of the same type, which is all the callback
    compares; a NaN is below nothing. *)
Definition py_leb (v w : pyval) : option bool :=
  match v, w with
  | PyInt a, PyInt b => Some (a <=? b)
  | PyFloat x, PyFloat y => Some (float_leb x y)
  | _, _ => None
  end.

(** *** Formatting with [.Nf] *)

Definition LF : string := String (ascii_of_nat 10) "".
Definition CR : string := String (ascii_of_nat 13) "".

Fixpoint string_repeat (s : string) (n : nat) : string :=
  match n with
  | O => ""
  | S k => s ++ string_repeat s k
  end.

Definition digit_char (d : Z) : ascii := ascii_of_nat (48 + Z.to_nat d).

(** Decimal digits of a natural number given as [Z], most significant
    first; [fuel] bounds the number of digits. *)
Fixpoint dec_digits (fuel : nat) (n : Z) (acc : string) : string :=
  match fuel with
  | O => acc
  | S k =>
      let acc' := String (digit_char (n mod 10)) acc in
      if n / 10 =? 0 then acc' else dec_digits k (n / 10) acc'
  end.

Definition string_of_Z_nonneg (n : Z) : string :=
  dec_digits (S (Z.to_nat (Z.log2 n))) n "".

(** Round half to even of the rational [n / d], [d > 0]. *)
Definition round_half_even (n d : Z) : Z :=
  let q := n / d in
  let r := n mod d in
  match 2 * r ?= d with
  | Lt => q
  | Gt => q + 1
  | Eq => if Z.even q then q else q + 1
  end.

Fixpoint string_drop (n : nat) (s : string) : string :=
  match n, s with
  | S k, String _ t => string_drop k t
  | _, _ => s
  end.

Fixpoint string_take (n : nat) (s : string) : string :=
  match n, s with
  | S k, String c t => String c (string_take k t)
  | _, _ => ""
  end.

(** The digits of [n] scaled by [10^digits], as fixed-point text. *)
Definition fixed_point_text (n : Z) (digits : nat) : string :=
  let raw := string_of_Z_nonneg n in
  let padded := string_repeat "0" (S digits - String.length raw) ++ raw in
  let int_len := (String.length padded - digits)%nat in
  match digits with
  | O => padded
  | _ => string_take int_len padded ++ "." ++ string_drop int_len padded
  end.

(** [format(x, '.<digits>f')] for a float: the exact binary value, correctly
    rounded (ties to even) to [digits] decimal places. *)
Definition format_float (digits : nat) (x : float) : string :=
  match x with
  | S754_nan => "nan"
  | S754_infinity s => if s then "-inf" else "inf"
  | S754_zero s => (if s then "-" else "") ++ fixed_point_text 0 digits
  | S754_finite s m e =>
      let num := Zpos m * 10 ^ Z.of_nat digits * 2 ^ Z.max e 0 in
      let den := 2 ^ Z.max (- e) 0 in
      (if s then "-" else "") ++ fixed_point_text (round_half_even num den) digits
  end.

(** The same specifier applied to an [int] converts it to a float first. *)
Definition format_f (digits : nat) (v : pyval) : result string :=
  rbind (float_of_pyval v) (fun x => Ret (format_float digits x)).

End PyNum.

(** ** The environment: file system, server, console *)

Module Env.

Import PyNum.

Definition bytes := list Byte.byte.

(** The file system below the working directory is a tree; a directory
    lists its entries by name, the first entry of a name being the one
    that name denotes. *)
#[warnings="-register-all"]
Inductive node :=
| File (data : bytes)
| Dir (entries : list (string * node)).

Definition dir := list (string * node).

Fixpoint assoc (name : string) (es : dir) : option node :=
  match es with
  | [] => None
  | (k, v) :: rest => if String.eqb k name then Some v else assoc name rest
  end.

Fixpoint assoc_set (name : string) (n : node) (es : dir) : dir :=
  match es with
  | [] => [(name, n)]
  | (k, v) :: rest =>
      if String.eqb k name then (k, n) :: rest
      else (k, v) :: assoc_set name n rest
  end.

(** *** Paths *)

Fixpoint split_on (sep : ascii) (s cur : string) : list string :=
  match s with
  | EmptyString => [cur]
  | String c t =>
      if Ascii.eqb c sep then cur :: split_on sep t ""
      else split_on sep t (cur ++ String c "")
  end.

(** The components of a relative POSIX path; empty components, which
    repeated or trailing separators give, do not count.  [.] and [..] are
    not resolved: see [plain_path]. *)
Definition components (p : string) : list string :=
  filter (fun c => negb (String.eqb c "")) (split_on "/"%char p "").

Definition starts_with_sep (s : string) : bool :=
  match s with
  | String c _ => Ascii.eqb c "/"%char
  | EmptyString => false
  end.

Fixpoint ends_with_sep (s : string) : bool :=
  match s with
  | EmptyString => false
  | String c EmptyString => Ascii.eqb c "/"%char
  | String _ t => ends_with_sep t
  end.

(** The paths the model resolves as the operating system does: relative,
    and without [.] and [..], so that the components are the names of the
    directory entries the path goes through.  The script's own paths are
    of this kind. *)
Definition plain_name (c : string) : bool :=
  negb (String.eqb c ".") && negb (String.eqb c "..").

Definition plain_path (p : string) : bool :=
  negb (starts_with_sep p) && forallb plain_name (components p).

(** [os.path.join(a, b)] *)
Definition os_path_join (a b : string) : string :=
  if starts_with_sep b then b
  else if String.eqb a "" || ends_with_sep a then a ++ b
  else a ++ "/" ++ b.

Fixpoint lookup_in (comps : list string) (es : dir) : option node :=
  match comps with
  | [] => Some (Dir es)
  | c :: rest =>
      match assoc c es with
      | None => None
      | Some (File d) => match rest with [] => Some (File d) | _ => None end
      | Some (Dir sub) => lookup_in rest sub
      end
  end.

Definition fs_lookup (p : string) (fs : dir) : option node :=
  lookup_in (components p) fs.

Definition is_dir (p : string) (fs : dir) : bool :=
  match fs_lookup p fs with
  | Some (Dir _) => true
  | _ => false
  end.

Definition quoted (p : string) : string := "'" ++ p ++ "'".

Definition os_error (c : exn_class) (errno what p : string) : exn :=
  mk_exn c ("[Errno " ++ errno ++ "] " ++ what ++ ": " ++ quoted p).

(** *** [os.makedirs(p, exist_ok=True)]

    Every missing directory on the way is created; a directory that is
    already there is left as it is; a regular file in the way is an error:
    [NotADirectoryError] for a file among the ancestors, [FileExistsError]
    for a file at the leaf. *)
Fixpoint makedirs_in (p : string) (comps : list string) (es : dir) : result dir :=
  match comps with
  | [] => Ret es
  | c :: rest =>
      match assoc c es with
      | None =>
          rbind (makedirs_in p rest []) (fun sub => Ret (assoc_set c (Dir sub) es))
      | Some (Dir sub) =>
          rbind (makedirs_in p rest sub) (fun sub' => Ret (assoc_set c (Dir sub') es))
      | Some (File _) =>
          match rest with
          | [] => Raise (os_error FileExistsError "17" "File exists" p)
          | _ => Raise (os_error NotADirectoryError "20" "Not a directory" p)
          end
      end
  end.

Definition fs_makedirs (p : string) (fs : dir) : result dir :=
  makedirs_in p (components p) fs.

(** *** Writing a file

    [put_in p comps d es] makes the file at [comps] hold [d], creating it
    when absent: what [open(p, 'wb')] does with [d] empty. *)
Fixpoint put_in (p : string) (comps : list string) (d : bytes) (es : dir) : result dir :=
  match comps with
  | [] => Raise (os_error IsADirectoryError "21" "Is a directory" p)
  | [c] =>
      match assoc c es with
      | Some (Dir _) => Raise (os_error IsADirectoryError "21" "Is a directory" p)
      | _ => Ret (assoc_set c (File d) es)
      end
  | c :: rest =>
      match assoc c es with
      | None => Raise (os_error FileNotFoundError "2" "No such file or directory" p)
      | Some (File _) => Raise (os_error NotADirectoryError "20" "Not a directory" p)
      | Some (Dir sub) =>
          rbind (put_in p rest d sub) (fun sub' => Ret (assoc_set c (Dir sub') es))
      end
  end.

Definition fs_put (p : string) (d : bytes) (fs : dir) : result dir :=
  put_in p (components p) d fs.

(** [tfp.write(block)] on the file opened at [p]: the block is appended. *)
Definition fs_append (p : string) (block : bytes) (fs : dir) : result dir :=
  match fs_lookup p fs with
  | Some (File d) => fs_put p (d ++ block)%list fs
  | Some (Dir _) => Raise (os_error IsADirectoryError "21" "Is a directory" p)
  | None => Raise (os_error FileNotFoundError "2" "No such file or directory" p)
  end.

(** [os.path.getsize(p)].  For a directory, [stat] reports a size that
    depends on the file system; [4096] stands for it.  The script asks
    only for the size of the file it has just written. *)
Definition fs_getsize (p : string) (fs : dir) : result Z :=
  match fs_lookup p fs with
  | Some (File d) => Ret (Z.of_nat (List.length d))
  | Some (Dir _) => Ret 4096
  | None => Raise (os_error FileNotFoundError "2" "No such file or directory" p)
  end.

(** *** The remote server

    What [urlopen] and the successive [fp.read(bs)] give: either the
    request fails, or there is a response with an optional
    [Content-Length], the blocks that the reads return in turn, and what
    happens once they are used up: end of data, or an error. *)
Record response := mk_response {
  content_length : option Z;
  reads : list bytes;
  read_error : option exn
}.

Inductive server :=
| Unreachable (e : exn)
| Responds (r : response).

(** *** Calls and console output, in the order they happen *)
Inductive event :=
| EvMakedirs (path : string)
| EvUrlretrieve (url path : string)
| EvGetsize (path : string)
| EvPrint (text : string).

(** *** The monad: file-system state, exceptions, trace *)
Definition M (A : Type) : Type := dir -> result A * dir * list event.

Definition ret {A} (a : A) : M A := fun fs => (Ret a, fs, []).

Definition raise {A} (e : exn) : M A := fun fs => (Raise e, fs, []).

Definition bind {A B} (m : M A) (k : A -> M B) : M B :=
  fun fs =>
    match m fs with
    | (Ret a, fs1, t1) =>
        let '(r, fs2, t2) := k a fs1 in (r, fs2, (t1 ++ t2)%list)
    | (Raise e, fs1, t1) => (Raise e, fs1, t1)
    end.

Definition emit (ev : event) : M unit := fun fs => (Ret tt, fs, [ev]).

(** A pure computation that may raise. *)
Definition lift {A} (r : result A) : M A := fun fs => (r, fs, []).

(** A file-system operation that may raise; the state changes only when
    it succeeds. *)
Definition fs_update (op : dir -> result dir) : M unit :=
  fun fs =>
    match op fs with
    | Ret fs' => (Ret tt, fs', [])
    | Raise e => (Raise e, fs, [])
    end.

Definition fs_read {A} (op : dir -> result A) : M A :=
  fun fs => (op fs, fs, []).

(** [try: body  except Exception as e: handler e] *)
Definition try_except {A} (body : M A) (handler : exn -> M A) : M A :=
  fun fs =>
    match body fs with
    | (Ret a, fs1, t1) => (Ret a, fs1, t1)
    | (Raise e, fs1, t1) =>
        let '(r, fs2, t2) := handler e fs1 in (r, fs2, (t1 ++ t2)%list)
    end.

Declare Scope py_scope.
Delimit Scope py_scope with py.
Notation "x <- m ;; k" := (bind m (fun x => k))
  (at level 61, m at next level, right associativity) : py_scope.
Notation "m ;; k" := (bind m (fun _ => k))
  (at level 61, right associativity) : py_scope.

(** *** Standard output

    [sys.stdout] is a text stream with an encoding; its error handler is
    [strict] unless the environment says otherwise.  [write] encodes its
    argument before anything of it reaches the stream, and raises
    [UnicodeEncodeError] when a character has no encoding.  Text made of
    ASCII characters can always be encoded; for any other text the stream
    answers [None] when it can encode it, and the text of the error when it
    cannot.  Strings hold the UTF-8 bytes of the text, so a character is
    ASCII when its top bit is clear. *)
Definition stdout := string -> option string.

Definition is_ascii_char (c : ascii) : bool :=
  match c with
  | Ascii _ _ _ _ _ _ _ b7 => negb b7
  end.

Fixpoint is_ascii (s : string) : bool :=
  match s with
  | EmptyString => true
  | String c t => is_ascii_char c && is_ascii t
  end.

(** The exception [sys.stdout.write(s)] raises, if any. *)
Definition write_error (out : stdout) (s : string) : option exn :=
  if is_ascii s then None
  else option_map (mk_exn UnicodeEncodeError) (out s).

(** [print(s, end=e)] writes [s], then [e]; the event records what has
    been written. *)
Definition print_end (out : stdout) (s e : string) : M unit :=
  match write_error out s with
  | Some x => raise x
  | None =>
      match write_error out e with
      | Some x => bind (emit (EvPrint s)) (fun _ => raise x)
      | None => emit (EvPrint (s ++ e))
      end
  end.

(** [print(s)] *)
Definition print (out : stdout) (s : string) : M unit := print_end out s LF.

Definition os_makedirs (p : string) : M unit :=
  bind (emit (EvMakedirs p)) (fun _ => fs_update (fs_makedirs p)).

Definition os_path_getsize (p : string) : M Z :=
  bind (emit (EvGetsize p)) (fun _ => fs_read (fs_getsize p)).

Definition string_of_Z (z : Z) : string :=
  if z <? 0 then "-" ++ string_of_Z_nonneg (- z) else string_of_Z_nonneg z.

Definition content_too_short (read size : Z) : exn :=
  mk_exn ContentTooShortError
    ("<urlopen error retrieval incomplete: got only " ++ string_of_Z read
       ++ " out of " ++ string_of_Z size ++ " bytes>").

Section Urlretrieve.

Variable net : server.

Definition urlopen : M response :=
  match net with
  | Unreachable e => raise e
  | Responds r => ret r
  end.

Variable filename : string.
Variable reporthook : Z -> Z -> Z -> M unit.
Variables bs size : Z.

(** The [while True] loop of [urlretrieve], over the blocks still to be
    read; it gives the final value of [read]. *)
Fixpoint retrieve_loop (pending : list bytes) (err : option exn)
         (read blocknum : Z) : M Z :=
  match pending with
  | [] =>
      match err with
      | Some e => raise e
      | None => ret read
      end
  | [] :: _ => ret read
  | block :: rest =>
      (fs_update (fs_append filename block) ;;
       reporthook (blocknum + 1) bs size ;;
       retrieve_loop rest err (read + Z.of_nat (List.length block)) (blocknum + 1))%py
  end.

End Urlretrieve.

(** [urllib.request.urlretrieve(url, filename, reporthook)] *)
Definition urlretrieve (net : server) (url filename : string)
           (reporthook : Z -> Z -> Z -> M unit) : M unit :=
  (emit (EvUrlretrieve url filename) ;;
   resp <- urlopen net ;;
   fs_update (fs_put filename []) ;;
   let bs := 1024 * 8 in
   let size := match content_length resp with Some n => n | None => -1 end in
   reporthook 0 bs size ;;
   read <- retrieve_loop filename reporthook bs size
             (reads resp) (read_error resp) 0 0 ;;
   if (size >=? 0) && (read <? size)
   then raise (content_too_short read size)
   else ret tt)%py.

End Env.

(** ** The script *)

Module Script.

Import PyNum Env.
Local Open Scope py_scope.

Definition models_dir : string := "assets/models".

Definition model_url : string :=
  "https://github.com/kby-ai/FaceRecognition-Flutter/raw/main/assets/facenet.tflite".

Definition model_path : string := os_path_join models_dir "facenet.tflite".

(** [percent = (downloaded / total_size) * 100 if total_size > 0 else 0] *)
Definition percent_of (downloaded total_size : Z) : result pyval :=
  if total_size >? 0
  then rbind (int_truediv downloaded total_size) (fun q =>
       rbind (float_mul_int q 100) (fun p => Ret (PyFloat p)))
  else Ret (PyInt 0).

(** The local variables of [download_progress] at its [print]. *)
Record progress := mk_progress {
  percent : pyval;
  mb_downloaded : float;
  mb_total : float
}.

Definition progress_values (block_num block_size total_size : Z) : result progress :=
  let downloaded := block_num * block_size in
  rbind (percent_of downloaded total_size) (fun percent =>
  rbind (int_truediv downloaded (1024 * 1024)) (fun mb_downloaded =>
  rbind (int_truediv total_size (1024 * 1024)) (fun mb_total =>
  Ret (mk_progress percent mb_downloaded mb_total)))).

Definition progress_line (v : progress) : result string :=
  rbind (format_f 1 (percent v)) (fun p =>
  rbind (format_f 1 (PyFloat (mb_downloaded v))) (fun d =>
  rbind (format_f 1 (PyFloat (mb_total v))) (fun t =>
  Ret (CR ++ "Progress: " ++ p ++ "% (" ++ d ++ "/" ++ t ++ " MB)")%string))).

Section Console.

(** Standard output, as the interpreter opened it. *)
Variable out : stdout.

Definition download_progress (block_num block_size total_size : Z) : M unit :=
  v <- lift (progress_values block_num block_size total_size) ;;
  line <- lift (progress_line v) ;;
  print_end out line "".

Definition rule : string := string_repeat "=" 50.

(** The body of the [try] statement. *)
Definition download_body (net : server) : M unit :=
  urlretrieve net model_url model_path download_progress ;;
  size <- os_path_getsize model_path ;;
  file_size <- lift (int_truediv size (1024 * 1024)) ;;
  print out (LF ++ LF ++ "✓ Model downloaded successfully!") ;;
  print out ("  File size: " ++ format_float 2 file_size ++ " MB") ;;
  print out (LF ++ rule) ;;
  print out "Next Steps:" ;;
  print out rule ;;
  print out "1. Run: flutter pub get" ;;
  print out "2. Delete all employees from the app" ;;
  print out "3. Re-register employees with new model" ;;
  print out ("4. Test face recognition accuracy" ++ LF).

Definition fallback_url : string :=
  "https://github.com/kby-ai/FaceRecognition-Flutter/tree/main/assets".

(** The [except Exception as e] clause. *)
Definition report_failure (e : exn) : M unit :=
  print out (LF ++ "✗ Error: " ++ exn_text e) ;;
  print out (LF ++ "Alternative: Download manually from:") ;;
  print out fallback_url ;;
  print out ("Save as: " ++ model_path ++ LF).

Definition banner : M unit :=
  print out rule ;;
  print out "FaceNet Model Download Script" ;;
  print out rule ;;
  print out (LF ++ "Downloading from: " ++ model_url) ;;
  print out ("Destination: " ++ model_path ++ LF).

Definition script (net : server) : M unit :=
  os_makedirs models_dir ;;
  banner ;;
  try_except (download_body net) report_failure.

End Console.

(** One invocation: standard output, the server's behaviour and the file
    system at the start give the outcome, the file system at the end and
    the trace. *)
Definition run (out : stdout) (net : server) (fs : dir)
  : result unit * dir * list event :=
  script out net fs.

(** The interpreter's exit status: 0 when the module body runs to its
    end, 1 when an exception leaves it. *)
Definition exit_status (r : result unit) : Z :=
  match r with
  | Ret _ => 0
  | Raise _ => 1
  end.

Definition outcome_of (x : result unit * dir * list event) : result unit := fst (fst x).
Definition final_fs (x : result unit * dir * list event) : dir := snd (fst x).
Definition trace_of (x : result unit * dir * list event) : list event := snd x.


End Script.

(** ** What an invocation prints and calls *)

Module Report.

Import PyNum Env Script.

Definition is_print (ev : event) : bool :=
  match ev with
  | EvPrint _ => true
  | _ => false
  end.

Definition is_fetch (ev : event) : bool :=
  match ev with
  | EvUrlretrieve _ _ => true
  | _ => false
  end.

Definition fetches (t : list event) : nat := List.length (filter is_fetch t).

(** The bytes the transfer loop writes for a sequence of reads: the blocks
    up to the first empty one. *)
Fixpoint payload (pending : list bytes) : bytes :=
  match pending with
  | [] => []
  | [] :: _ => []
  | block :: rest => (block ++ payload rest)%list
  end.

Definition banner_events : list event :=
  [ EvPrint (rule ++ LF);
    EvPrint ("FaceNet Model Download Script" ++ LF);
    EvPrint (rule ++ LF);
    EvPrint (LF ++ "Downloading from: " ++ model_url ++ LF);
    EvPrint ("Destination: " ++ model_path ++ LF ++ LF) ].

(** The text of the first [print] of the [except] clause, and the line it
    gives. *)
Definition error_text (e : exn) : string := LF ++ "✗ Error: " ++ exn_text e.

Definition error_line (e : exn) : string := LF ++ "✗ Error: " ++ exn_text e ++ LF.

(** The text of the first [print] after the transfer. *)
Definition success_text : string := LF ++ LF ++ "✓ Model downloaded successfully!".


Definition failure_events (e : exn) : list event :=
  [ EvPrint (error_line e);
    EvPrint (LF ++ "Alternative: Download manually from:" ++ LF);
    EvPrint (fallback_url ++ LF);
    EvPrint ("Save as: " ++ model_path ++ LF ++ LF) ].

Definition success_events (file_size : float) : list event :=
  [ EvPrint (LF ++ LF ++ "✓ Model downloaded successfully!" ++ LF);
    EvPrint ("  File size: " ++ format_float 2 file_size ++ " MB" ++ LF);
    EvPrint (LF ++ rule ++ LF);
    EvPrint ("Next Steps:" ++ LF);
    EvPrint (rule ++ LF);
    EvPrint ("1. Run: flutter pub get" ++ LF);
    EvPrint ("2. Delete all employees from the app" ++ LF);
    EvPrint ("3. Re-register employees with new model" ++ LF);
    EvPrint ("4. Test face recognition accuracy" ++ LF ++ LF) ].



(** A successful run: the [try] body runs to its end. *)
Definition succeeds (out : stdout) (net : server) (fs : dir) : Prop :=
  exists fs1 fs2 t,
    fs_makedirs models_dir fs = Ret fs1 /\
    download_body out net fs1 = (Ret tt, fs2, t).

(** A callback that only prints: it leaves the file system alone and
    calls nothing. *)
Definition prints_only (hook : Z -> Z -> Z -> M unit) : Prop :=
  forall a b c fs, exists r t,
    hook a b c fs = (r, fs, t) /\ forallb is_print t = true.

(** What follows the fetch and the progress lines: the report of the
    outcome, preceded by the size query unless the transfer itself failed.
    The report of a failure is missing when standard output cannot encode
    its first line. *)
Definition outcome_report (out : stdout) (t : list event) : Prop :=
  (exists file_size, t = EvGetsize model_path :: success_events file_size)
  \/ (exists e, t = failure_events e)
  \/ (exists e, t = EvGetsize model_path :: failure_events e)
  \/ (exists e x, write_error out (error_text e) = Some x
                  /\ (t = [] \/ t = [EvGetsize model_path])).

End Report.


(** ** The progress callback, as the description words it *)

Module ProgressSpec.

Import PyNum Env Script.

(** The floats [1.0] and [100.0]. *)
Definition one : float := S754_finite false 4503599627370496 (-52).
Definition hundred : float := S754_finite false 7036874417766400 (-46).

(** "if total_size > 0 the percentage is (block_num * block_size /
    total_size) * 100, otherwise it is 0" *)
Definition claimed_percent (block_num block_size total_size : Z) : result pyval :=
  if 0 <? total_size
  then rbind (int_truediv (block_num * block_size) total_size) (fun q =>
       rbind (float_mul_int q 100) (fun p => Ret (PyFloat p)))
  else Ret (PyInt 0).

(** "the megabyte counts are the downloaded byte count and total_size,
    each divided by 1048576" *)
Definition claimed_mb_downloaded (block_num block_size : Z) : result float :=
  int_truediv (block_num * block_size) 1048576.

Definition claimed_mb_total (total_size : Z) : result float :=
  int_truediv total_size 1048576.

(** The line that reports these three numbers with one decimal each. *)
Definition claimed_line (block_num block_size total_size : Z) : result string :=
  rbind (claimed_percent block_num block_size total_size) (fun p =>
  rbind (claimed_mb_downloaded block_num block_size) (fun d =>
  rbind (claimed_mb_total total_size) (fun t =>
  rbind (format_f 1 p) (fun ps =>
  Ret (CR ++ "Progress: " ++ ps ++ "% (" ++ format_float 1 d
          ++ "/" ++ format_float 1 t ++ " MB)")%string)))).

End ProgressSpec.

(** ** Rounding to binary64, stated on fractions

    [SFdiv] and [SFmul] hand a truncated mantissa, an exponent and the
    location of the exact value to [binary_round_aux], which shifts and
    rounds.  To reason on the result, the exact non-negative value is kept
    as a fraction of integers and the outcome is described by arithmetic
    on that fraction: [rne] for the rounded mantissa, [float_of_rounded] for
    the float it makes. *)

Module Rounding.

Import PyNum.

(** The smallest exponent, and the exponent of a number of the given
    magnitude: [fexp prec emax] at [prec = 53], [emax = 1024]. *)
Definition emin64 : Z := -1074.
Definition fexp64 (e : Z) : Z := Z.max (e - 53) emin64.

(** A non-negative real is carried as a fraction: [T / (2 * D)] counts
    units of the current exponent.  [record_of T D] is the truncated
    mantissa with its round and sticky bits. *)
Definition record_of (T D : Z) : shr_record :=
  {| shr_m := T / (2 * D); shr_r := Z.odd (T / D); shr_s := negb (T mod D =? 0) |}.

(** A mantissa [m] with location [l] truncates [T / (2 * D)]. *)
Definition located (T D m : Z) (l : location) : Prop :=
  0 <= T /\ 0 < D /\ shr_record_of_loc m l = record_of T D.

(** [T / (2 * D)] rounded to the nearest integer, ties to even. *)
Definition rne (T D : Z) : Z :=
  let h := T / D in
  let m := h / 2 in
  if Z.odd h && (negb (T mod D =? 0) || Z.odd m) then m + 1 else m.

(** The float made of a rounded mantissa [M <= 2^53] at exponent [e]. *)
Definition float_of_rounded (s : bool) (M e : Z) : float :=
  match M with
  | Zpos p =>
      if M =? 2 ^ 53
      then (if e + 1 <=? 971 then S754_finite s 4503599627370496 (e + 1)
            else S754_infinity s)
      else (if e <=? 971 then S754_finite s p e else S754_infinity s)
  | Z0 => S754_zero s
  | Zneg _ => S754_nan
  end.

(** How far the first normalisation shifts [(m, e)] to the right. *)
Definition shift_of (m e : Z) : Z := Z.max 0 (fexp64 (Zdigits2 m + e) - e).

(** [(m, e)] is fine enough for a correct rounding: it is at or below the
    exponent of its magnitude. *)
Definition fine (m e : Z) : Prop := e <= fexp64 (Zdigits2 m + e).

(** Order of the values [T1 / (2 * D1) * 2^e1] and [T2 / (2 * D2) * 2^e2]. *)
Definition value_le (T1 D1 e1 T2 D2 e2 : Z) : Prop :=
  T1 * 2 ^ (e1 - Z.min e1 e2) * D2 <= T2 * 2 ^ (e2 - Z.min e1 e2) * D1.

(** The pair (rounded mantissa, exponent) of the smaller value is below
    that of the larger: a smaller exponent against a normal mantissa, or
    the same exponent and a smaller mantissa. *)
Definition pair_le (M1 E1 M2 E2 : Z) : Prop :=
  (E1 < E2 /\ 2 ^ 52 <= M2) \/ (E1 = E2 /\ M1 <= M2).

Definition norm_exp (M E : Z) : Z := if M =? 2 ^ 53 then E + 1 else E.
Definition norm_mant (M : Z) : Z := if M =? 2 ^ 53 then 2 ^ 52 else M.

(** The quotient [a / b] of two positive integers, as [SFdiv] prepares
    it: exponent, scaled numerator, truncated mantissa. *)
Definition div_exp (a b : Z) : Z := Z.min (fexp64 (Zdigits2 a - Zdigits2 b)) 0.
Definition div_num (a b : Z) : Z := a * 2 ^ (- div_exp a b).
Definition div_mant (a b : Z) : Z := div_num a b / b.

(** The rounded mantissa and exponent of [a / b]. *)
Definition quotient_exp (a b : Z) : Z :=
  div_exp a b + shift_of (div_mant a b) (div_exp a b).
Definition quotient_mant (a b : Z) : Z :=
  rne (2 * div_num a b) (2 ^ shift_of (div_mant a b) (div_exp a b) * b).

(** The rounded mantissa and exponent of [m * 2^e * c * 2^k]. *)
Definition product_exp (m e c k : Z) : Z := e + k + shift_of (m * c) (e + k).
Definition product_mant (m e c k : Z) : Z :=
  rne (2 * (m * c)) (2 ^ shift_of (m * c) (e + k) * 1).


(** The sign of a float, zero counting on both sides. *)
Definition nonneg_float (f : float) : bool :=
  match f with
  | S754_zero _ | S754_finite false _ _ | S754_infinity false => true
  | _ => false
  end.

Definition nonpos_float (f : float) : bool :=
  match f with
  | S754_zero _ | S754_finite true _ _ | S754_infinity true => true
  | _ => false
  end.

End Rounding.
(** ** Sample environments *)

Module Samples.

Import PyNum Env Script Report.

Definition block_of (n : nat) : bytes := repeat Byte.x41 n.

(** Nothing below the working directory yet. *)
Definition fs_empty : dir := [].

(** A regular file named [assets] stands where the directory should go. *)
Definition fs_blocked : dir := [("assets", File [Byte.x00])].

(** An earlier download is in place. *)
Definition fs_downloaded : dir :=
  [("assets", Dir [("models", Dir [("facenet.tflite", File (block_of 7))])])].

Definition network_down : exn :=
  mk_exn URLError "<urlopen error [Errno 101] Network is unreachable>".

Definition net_unreachable : server := Unreachable network_down.

(** A server that announces five bytes and delivers them in two reads. *)
Definition net_small : server :=
  Responds (mk_response (Some 5) [block_of 3; block_of 2] None).

(** A server that announces 10000 bytes and delivers them in blocks of
    8192: the second block is only partly filled. *)
Definition net_two_blocks : server :=
  Responds (mk_response (Some 10000) [block_of (Z.to_nat 8192); block_of (Z.to_nat 1808)] None).

(** A terminal in UTF-8: every text can be encoded. *)
Definition utf8_stdout : stdout := fun _ => None.

(** *** Standard output with the encoding [ascii]

    As under [PYTHONIOENCODING=ascii]: no character beyond ASCII can be
    encoded.  The text of the error is the codec's: it names the first run
    of such characters by position, and the character when the run has one. *)

Definition byte_of (c : ascii) : Z := Z.of_nat (nat_of_ascii c).

(** The number of ASCII characters [s] starts with, and what follows. *)
Fixpoint ascii_prefix (s : string) : Z * string :=
  match s with
  | String c t =>
      if is_ascii_char c then let '(n, rest) := ascii_prefix t in (n + 1, rest)
      else (0, s)
  | EmptyString => (0, s)
  end.

(** The characters of the run of non-ASCII bytes [s] starts with: one for
    each byte that is not a continuation byte. *)
Fixpoint run_length (s : string) : Z :=
  match s with
  | String c t =>
      if is_ascii_char c then 0
      else (if byte_of c <? 192 then 0 else 1) + run_length t
  | EmptyString => 0
  end.

(** The code point of the UTF-8 sequence [s] starts with. *)
Definition code_point (s : string) : Z :=
  match s with
  | String b0 (String b1 t) =>
      if byte_of b0 <? 224 then
        Z.lor (Z.shiftl (Z.land (byte_of b0) 31) 6) (Z.land (byte_of b1) 63)
      else
        match t with
        | String b2 t' =>
            if byte_of b0 <? 240 then
              Z.lor (Z.shiftl (Z.land (byte_of b0) 15) 12)
                (Z.lor (Z.shiftl (Z.land (byte_of b1) 63) 6) (Z.land (byte_of b2) 63))
            else
              match t' with
              | String b3 _ =>
                  Z.lor (Z.shiftl (Z.land (byte_of b0) 7) 18)
                    (Z.lor (Z.shiftl (Z.land (byte_of b1) 63) 12)
                       (Z.lor (Z.shiftl (Z.land (byte_of b2) 63) 6)
                              (Z.land (byte_of b3) 63)))
              | EmptyString => 0
              end
        | EmptyString => 0
        end
  | _ => 0
  end.

Definition hex_digit (d : Z) : string :=
  match String.get (Z.to_nat d) "0123456789abcdef" with
  | Some c => String c ""
  | None => ""
  end.

(** [n] in hexadecimal, with [width] digits. *)
Fixpoint hex (width : nat) (n : Z) : string :=
  match width with
  | O => ""
  | S k => hex k (n / 16) ++ hex_digit (n mod 16)
  end.

(** The character as [repr] escapes it. *)
Definition escaped (cp : Z) : string :=
  if cp <? 256 then "\x" ++ hex 2 cp
  else if cp <? 65536 then "\u" ++ hex 4 cp
  else "\U" ++ hex 8 cp.

Definition ascii_stdout : stdout := fun s =>
  let '(start, rest) := ascii_prefix s in
  let n := run_length rest in
  Some ("'ascii' codec can't encode "
          ++ (if n <=? 1
              then "character '" ++ escaped (code_point rest) ++ "' in position "
                     ++ string_of_Z_nonneg start
              else "characters in position " ++ string_of_Z_nonneg start
                     ++ "-" ++ string_of_Z_nonneg (start + n - 1))
          ++ ": ordinal not in range(128)").

(** What [print] raises there for the first line of the error report, and
    for the first line of the report of success. *)
Definition cross_refused : exn :=
  mk_exn UnicodeEncodeError
    "'ascii' codec can't encode character '\u2717' in position 1: ordinal not in range(128)".

Definition check_refused : exn :=
  mk_exn UnicodeEncodeError
    "'ascii' codec can't encode character '\u2713' in position 2: ordinal not in range(128)".

End Samples.

(** ** What a run does to the file system and to the console *)

Module Effects.

Import PyNum Env Script Report Samples.

(** [q] is a prefix of [comps], or [comps] itself. *)
Fixpoint is_prefix (q comps : list string) : bool :=
  match q, comps with
  | [], _ => true
  | x :: q', y :: comps' => String.eqb x y && is_prefix q' comps'
  | _ :: _, [] => false
  end.

(** A standard output that can encode every text, as one in UTF-8. *)
Definition encodes_all (out : stdout) : Prop :=
  forall s, write_error out s = None.

(** A standard output that can encode ASCII text only. *)
Definition ascii_only (out : stdout) : Prop :=
  forall s, is_ascii s = false -> out s <> None.

(** The destination file, by components. *)
Definition destination : list string := components model_path.

(** The number of blocks the transfer loop takes from a sequence of reads:
    those before the first empty one. *)
Fixpoint blocks_received (pending : list bytes) : nat :=
  match pending with
  | [] => O
  | [] :: _ => O
  | _ :: rest => S (blocks_received rest)
  end.

(** The size passed to the callback: the announced length, or [-1]. *)
Definition announced_size (resp : response) : Z :=
  match content_length resp with
  | Some n => n
  | None => -1
  end.

(** A callback that, for one block size and total size, leaves the file
    system alone, emits only events in [P], and emits exactly one when it
    returns. *)
Definition hook_emits (hook : Z -> Z -> Z -> M unit) (bs size : Z)
           (P : event -> Prop) : Prop :=
  forall a fs, exists r t,
    hook a bs size fs = (r, fs, t) /\ Forall P t /\
    (r = Ret tt -> List.length t = 1%nat).

(** A progress line for a download of unknown size. *)
Definition unknown_size_line (ev : event) : Prop :=
  exists d, ev = EvPrint (CR ++ "Progress: 0.0% (" ++ d ++ "/-0.0 MB)").

Definition any_print (ev : event) : Prop := is_print ev = true.

(** Both files, or both directories. *)
Definition same_kind (a b : node) : bool :=
  match a, b with
  | File _, File _ => true
  | Dir _, Dir _ => true
  | _, _ => false
  end.

(** The float [0.0]. *)
Definition zero : float := S754_zero false.

(** A server that does not announce a length and sends three blocks. *)
Definition net_no_length : server :=
  Responds (mk_response None [block_of 4; block_of 4; block_of 1] None).

(** A server that announces five bytes and breaks off after three. *)
Definition net_broken : server :=
  Responds (mk_response (Some 5) [block_of 3]
              (Some (mk_exn OSError "[Errno 104] Connection reset by peer"))).

(** Another model sits beside the destination, and a file beside [assets]. *)
Definition fs_neighbours : dir :=
  [("README.md", File (block_of 2));
   ("assets", Dir [("models", Dir [("other.tflite", File (block_of 9));
                                   ("facenet.tflite", File (block_of 7))])])].

End Effects.
(** ** Properties of the file-system model *)

Module EnvFacts.

Import PyNum Env.

Lemma assoc_set_same (c : string) (n : node) (es : dir) :
  assoc c (assoc_set c n es) = Some n.
Proof.
  induction es as [|[k v] rest IH]; simpl.
  - now rewrite String.eqb_refl.
  - destruct (String.eqb k c) eqn:E; simpl; now rewrite E.
Qed.

Lemma assoc_set_id (c : string) (n : node) (es : dir) :
  assoc c es = Some n -> assoc_set c n es = es.
Proof.
  induction es as [|[k v] rest IH]; simpl; [discriminate|].
  destruct (String.eqb k c) eqn:E.
  - now intros [= ->].
  - intros H. now rewrite IH.
Qed.

Lemma assoc_set_set (c : string) (n m : node) (es : dir) :
  assoc_set c n (assoc_set c m es) = assoc_set c n es.
Proof.
  induction es as [|[k v] rest IH]; simpl.
  - now rewrite String.eqb_refl.
  - destruct (String.eqb k c) eqn:E; simpl; rewrite E; [reflexivity|now rewrite IH].
Qed.

(** A directory that is there already: no error, nothing changes. *)
Lemma makedirs_in_present (p : string) (comps : list string) :
  forall es d, lookup_in comps es = Some (Dir d) -> makedirs_in p comps es = Ret es.
Proof.
  induction comps as [|c rest IH]; intros es d H; simpl in *; [reflexivity|].
  destruct (assoc c es) as [[data|sub]|] eqn:A; try discriminate.
  - destruct rest; discriminate.
  - rewrite (IH _ _ H). simpl. now rewrite (assoc_set_id _ _ _ A).
Qed.

(** After a successful call the directory is there. *)
Lemma makedirs_in_creates (p : string) (comps : list string) :
  forall es es', makedirs_in p comps es = Ret es' ->
                 exists d, lookup_in comps es' = Some (Dir d).
Proof.
  induction comps as [|c rest IH]; intros es es' H; simpl in *.
  - eauto.
  - destruct (assoc c es) as [[data|sub]|] eqn:A.
    + destruct rest; discriminate.
    + destruct (makedirs_in p rest sub) as [sub'|e] eqn:R; simpl in H; [|discriminate].
      inversion H; subst es'. rewrite assoc_set_same. exact (IH _ _ R).
    + destruct (makedirs_in p rest []) as [sub'|e] eqn:R; simpl in H; [|discriminate].
      inversion H; subst es'. rewrite assoc_set_same. exact (IH _ _ R).
Qed.

Lemma makedirs_in_idem (p : string) (comps : list string) :
  forall es es', makedirs_in p comps es = Ret es' -> makedirs_in p comps es' = Ret es'.
Proof.
  intros es es' H.
  destruct (makedirs_in_creates _ _ _ _ H) as [d Hd].
  exact (makedirs_in_present _ _ _ _ Hd).
Qed.

Lemma put_in_step (p c c2 : string) (rest : list string) (d : bytes) (es : dir) :
  put_in p (c :: c2 :: rest) d es =
  match assoc c es with
  | None => Raise (os_error FileNotFoundError "2" "No such file or directory" p)
  | Some (File _) => Raise (os_error NotADirectoryError "20" "Not a directory" p)
  | Some (Dir sub) =>
      rbind (put_in p (c2 :: rest) d sub) (fun sub' => Ret (assoc_set c (Dir sub') es))
  end.
Proof. reflexivity. Qed.

Lemma lookup_in_step (c : string) (rest : list string) (es : dir) :
  lookup_in (c :: rest) es =
  match assoc c es with
  | None => None
  | Some (File d) => match rest with [] => Some (File d) | _ => None end
  | Some (Dir sub) => lookup_in rest sub
  end.
Proof. reflexivity. Qed.

(** Writing a file makes the path denote a file with that content. *)
Lemma put_in_lookup (p : string) (comps : list string) (d : bytes) :
  forall es es', put_in p comps d es = Ret es' -> lookup_in comps es' = Some (File d).
Proof.
  induction comps as [|c rest IH]; intros es es' H; [discriminate|].
  destruct rest as [|c2 rest].
  - simpl in *.
    assert (es' = assoc_set c (File d) es) as ->
      by (destruct (assoc c es) as [[?|?]|]; congruence).
    now rewrite assoc_set_same.
  - rewrite put_in_step in H. rewrite lookup_in_step.
    destruct (assoc c es) as [[data|sub]|] eqn:A; try discriminate.
    destruct (put_in p (c2 :: rest) d sub) as [sub'|e] eqn:R; simpl in H; [|discriminate].
    inversion H; subst es'. rewrite assoc_set_same. exact (IH _ _ R).
Qed.

(** A file that is there can be rewritten. *)
Lemma put_in_over_file (p : string) (comps : list string) (d : bytes) :
  forall es old, lookup_in comps es = Some (File old) ->
                 exists es', put_in p comps d es = Ret es'.
Proof.
  induction comps as [|c rest IH]; intros es old H; [discriminate|].
  destruct rest as [|c2 rest].
  - simpl in *. destruct (assoc c es) as [[data|sub]|]; try discriminate; eauto.
  - rewrite put_in_step. rewrite lookup_in_step in H.
    destruct (assoc c es) as [[data|sub]|] eqn:A; try discriminate.
    destruct (IH _ _ H) as [sub' ->]. simpl. eauto.
Qed.

Lemma fs_append_lookup (p : string) (block old : bytes) (fs fs' : dir) :
  fs_lookup p fs = Some (File old) ->
  fs_append p block fs = Ret fs' ->
  fs_lookup p fs' = Some (File (old ++ block)%list).
Proof.
  unfold fs_append, fs_lookup, fs_put. intros -> H.
  exact (put_in_lookup _ _ _ _ _ H).
Qed.

Lemma fs_append_ok (p : string) (block old : bytes) (fs : dir) :
  fs_lookup p fs = Some (File old) -> exists fs', fs_append p block fs = Ret fs'.
Proof.
  unfold fs_append, fs_lookup, fs_put. intros H. rewrite H.
  exact (put_in_over_file _ _ _ _ _ H).
Qed.

End EnvFacts.


(** ** Correctness of the rounding of [SpecFloat] on fractions *)

Module RoundingFacts.

Import PyNum Rounding.

Lemma fexp_eq (e : Z) : fexp prec emax e = fexp64 e.
Proof. reflexivity. Qed.

Lemma fexp64_ge (e : Z) : e - 53 <= fexp64 e /\ emin64 <= fexp64 e.
Proof. unfold fexp64. lia. Qed.

Lemma fexp64_mono (a b : Z) : a <= b -> fexp64 a <= fexp64 b.
Proof. unfold fexp64. lia. Qed.

(** *** Number of binary digits *)

Lemma digits2_pos_size (p : positive) : digits2_pos p = Pos.size p.
Proof. induction p; simpl; congruence. Qed.

Lemma Zdigits2_log2 (m : Z) : 0 < m -> Zdigits2 m = Z.log2 m + 1.
Proof.
  destruct m as [|p|p]; try lia. intros _. unfold Zdigits2.
  rewrite digits2_pos_size. destruct p; simpl; lia.
Qed.

Lemma Zdigits2_bounds (m : Z) :
  0 < m -> 2 ^ (Zdigits2 m - 1) <= m < 2 ^ Zdigits2 m.
Proof.
  intros H. rewrite Zdigits2_log2 by assumption.
  replace (Z.log2 m + 1 - 1) with (Z.log2 m) by lia.
  replace (Z.log2 m + 1) with (Z.succ (Z.log2 m)) by lia.
  now apply Z.log2_spec.
Qed.

Lemma Zdigits2_pos (m : Z) : 0 < m -> 0 < Zdigits2 m.
Proof.
  intros H. rewrite Zdigits2_log2 by assumption.
  pose proof (Z.log2_nonneg m). lia.
Qed.

Lemma Zdigits2_le (m d : Z) : 0 <= d -> 0 <= m < 2 ^ d -> Zdigits2 m <= d.
Proof.
  intros Hd [H0 H]. destruct (Z.eq_dec m 0) as [->|Hm]; [simpl; lia|].
  rewrite Zdigits2_log2 by lia.
  assert (Z.log2 m < d) by (apply Z.log2_lt_pow2; lia). lia.
Qed.

Lemma Zdigits2_ge (m d : Z) : 0 <= d -> 2 ^ d <= m -> d + 1 <= Zdigits2 m.
Proof.
  intros Hd H. assert (0 < m) by (pose proof (Z.pow_pos_nonneg 2 d); lia).
  rewrite Zdigits2_log2 by lia.
  assert (d <= Z.log2 m) by (apply Z.log2_le_pow2; lia). lia.
Qed.

(** *** Shifting right, one bit at a time *)

Lemma iter_pos_nat {A} (f : A -> A) (p : positive) (x : A) :
  iter_pos f p x = Nat.iter (Pos.to_nat p) f x.
Proof.
  revert x. induction p as [p IH|p IH|]; intros x; cbn [iter_pos].
  - rewrite !IH, Pos2Nat.inj_xI.
    replace (S (2 * Pos.to_nat p)) with (Pos.to_nat p + S (Pos.to_nat p))%nat by lia.
    rewrite Nat.iter_add. f_equal. now rewrite Nat.iter_succ_r.
  - rewrite !IH, Pos2Nat.inj_xO.
    replace (2 * Pos.to_nat p)%nat with (Pos.to_nat p + Pos.to_nat p)%nat by lia.
    now rewrite Nat.iter_add.
  - reflexivity.
Qed.

Lemma shr_1_nonneg (m : Z) (r s : bool) :
  0 <= m ->
  shr_1 {| shr_m := m; shr_r := r; shr_s := s |}
  = {| shr_m := m / 2; shr_r := Z.odd m; shr_s := r || s |}.
Proof.
  intros H. destruct m as [|p|p]; try lia.
  - reflexivity.
  - destruct p as [p|p|]; unfold shr_1.
    + replace (Z.pos p~1 / 2) with (Z.pos p)
        by (apply (Z.div_unique _ 2 _ 1); lia). reflexivity.
    + replace (Z.pos p~0 / 2) with (Z.pos p)
        by (apply (Z.div_unique _ 2 _ 0); lia). reflexivity.
    + reflexivity.
Qed.

Lemma record_of_shr_1 (T D : Z) :
  0 <= T -> 0 < D -> shr_1 (record_of T D) = record_of T (2 * D).
Proof.
  intros HT HD. unfold record_of.
  rewrite shr_1_nonneg by (apply Z.div_pos; lia).
  f_equal.
  - rewrite Z.div_div by lia. f_equal. lia.
  - rewrite (Z.mul_comm 2 D), Z.rem_mul_r by lia.
    pose proof (Z.mod_pos_bound T D HD) as Hm.
    rewrite Zmod_odd. destruct (Z.odd (T / D)); simpl.
    + symmetry. apply negb_true_iff, Z.eqb_neq. lia.
    + now rewrite Z.mul_0_r, Z.add_0_r.
Qed.

Lemma record_of_shr_iter (n : nat) (T D : Z) :
  0 <= T -> 0 < D ->
  Nat.iter n shr_1 (record_of T D) = record_of T (2 ^ Z.of_nat n * D).
Proof.
  intros HT HD. induction n as [|n IH].
  - change (Nat.iter 0 shr_1 (record_of T D)) with (record_of T D).
    change (Z.of_nat 0) with 0. now rewrite Z.pow_0_r, Z.mul_1_l.
  - rewrite Nat.iter_succ, IH.
    rewrite record_of_shr_1 by (try apply Z.mul_pos_pos; try apply Z.pow_pos_nonneg; lia).
    f_equal. rewrite Nat2Z.inj_succ, Z.pow_succ_r by lia. lia.
Qed.

(** [shr] by [n] divides the denominator's unit by [2^n]. *)
Lemma shr_record_of (T D e n : Z) :
  0 <= T -> 0 < D ->
  shr (record_of T D) e n = (record_of T (2 ^ Z.max 0 n * D), e + Z.max 0 n).
Proof.
  intros HT HD. destruct n as [|p|p]; unfold shr.
  - change (Z.max 0 0) with 0. now rewrite Z.pow_0_r, Z.add_0_r, Z.mul_1_l.
  - rewrite iter_pos_nat, record_of_shr_iter by assumption.
    rewrite positive_nat_Z. now rewrite Z.max_r by lia.
  - change (Z.max 0 (Z.neg p)) with 0. now rewrite Z.pow_0_r, Z.add_0_r, Z.mul_1_l.
Qed.

(** *** The two normalisations of [binary_round_aux] *)

Lemma shr_fexp_located (T D m e : Z) (l : location) :
  located T D m l ->
  shr_fexp prec emax m e l
  = (record_of T (2 ^ shift_of m e * D), e + shift_of m e).
Proof.
  intros (HT & HD & Hl). unfold shr_fexp. rewrite Hl, fexp_eq.
  now rewrite shr_record_of.
Qed.

Lemma located_mantissa (T D m : Z) (l : location) :
  located T D m l -> m = T / (2 * D).
Proof.
  intros (_ & _ & Hl).
  change (T / (2 * D)) with (shr_m (record_of T D)). rewrite <- Hl.
  destruct l as [|[| |]]; reflexivity.
Qed.

Lemma rne_record (T D : Z) :
  0 < D ->
  round_nearest_even (shr_m (record_of T D)) (loc_of_shr_record (record_of T D))
  = rne T D.
Proof.
  intros HD. unfold rne, record_of, loc_of_shr_record, round_nearest_even, shr_m.
  rewrite (Z.mul_comm 2 D), <- Z.div_div by lia.
  rewrite <- Z.negb_odd.
  destruct (Z.odd (T / D)), (T mod D =? 0), (Z.odd (T / D / 2)); reflexivity.
Qed.

Lemma located_exact (M : Z) : 0 <= M -> located (2 * M) 1 M loc_Exact.
Proof.
  intros H. repeat split; try lia.
  unfold record_of, shr_record_of_loc. f_equal.
  - rewrite Z.mul_1_r. symmetry. rewrite Z.mul_comm. apply Z.div_mul. lia.
  - rewrite Z.div_1_r, Z.odd_mul. reflexivity.
  - now rewrite Z.mod_1_r.
Qed.

Lemma rne_bounds (T D : Z) :
  0 <= T -> 0 < D -> T / (2 * D) <= rne T D <= T / (2 * D) + 1.
Proof.
  intros HT HD. unfold rne.
  rewrite (Z.mul_comm 2 D), <- Z.div_div by lia.
  destruct (_ && _); lia.
Qed.

(** Both normalisations, on a located input. *)
Lemma binary_round_aux_unfold (s : bool) (T D m e : Z) (l : location) :
  located T D m l ->
  let n := shift_of m e in
  let M1 := rne T (2 ^ n * D) in
  let n2 := shift_of M1 (e + n) in
  binary_round_aux prec emax s m e l =
  match M1 / 2 ^ n2 with
  | Z0 => S754_zero s
  | Zpos p =>
      if e + n + n2 <=? emax - prec then S754_finite s p (e + n + n2)
      else S754_infinity s
  | Zneg _ => S754_nan
  end.
Proof.
  intros Hl n M1 n2. pose proof Hl as (HT & HD & _).
  assert (Hn : 0 <= n) by (unfold n, shift_of; lia).
  assert (HD' : 0 < 2 ^ n * D)
    by (apply Z.mul_pos_pos; [apply Z.pow_pos_nonneg|]; lia).
  unfold binary_round_aux. rewrite (shr_fexp_located _ _ _ _ _ Hl).
  fold n. rewrite rne_record by assumption. fold M1.
  assert (HM : 0 <= M1).
  { pose proof (rne_bounds T (2 ^ n * D) HT HD').
    pose proof (Z.div_pos T (2 * (2 ^ n * D))). unfold M1. lia. }
  rewrite (shr_fexp_located _ _ _ _ _ (located_exact M1 HM)). fold n2.
  unfold record_of, shr_m.
  replace (2 * M1 / (2 * (2 ^ n2 * 1))) with (M1 / 2 ^ n2).
  2:{ rewrite Z.mul_1_r, Z.div_mul_cancel_l; try lia.
      apply Z.pow_nonzero; unfold n2, shift_of; lia. }
  reflexivity.
Qed.

(** What a fine input gives after the first normalisation. *)
Lemma first_shift_bounds (T D m e : Z) (l : location) :
  located T D m l -> fine m e ->
  let n := shift_of m e in
  let m0 := T / (2 * (2 ^ n * D)) in
  0 <= n /\ e + n = fexp64 (Zdigits2 m + e) /\ emin64 <= e + n /\
  0 <= m0 < 2 ^ 53 /\ (m0 < 2 ^ 52 -> e + n = emin64) /\ m0 = m / 2 ^ n.
Proof.
  intros Hl Hf n m0. pose proof Hl as (HT & HD & _).
  pose proof (located_mantissa _ _ _ _ Hl) as Hm.
  unfold fine in Hf.
  assert (Hn : n = fexp64 (Zdigits2 m + e) - e) by (unfold n, shift_of; lia).
  assert (Hn0 : 0 <= n) by lia.
  assert (Hm0 : m0 = m / 2 ^ n).
  { unfold m0. rewrite Hm, Z.div_div by (try apply Z.pow_pos_nonneg; lia).
    f_equal. lia. }
  assert (Hmn : 0 <= m) by (rewrite Hm; apply Z.div_pos; lia).
  pose proof (Z.pow_pos_nonneg 2 n ltac:(lia) Hn0) as Hp.
  pose proof (fexp64_ge (Zdigits2 m + e)) as [Hg1 Hg2].
  repeat apply conj; try lia.
  - rewrite Hm0. apply Z.div_pos; lia.
  - rewrite Hm0. apply Z.div_lt_upper_bound; [lia|].
    destruct (Z.eq_dec m 0) as [->|Hne]; [lia|].
    pose proof (Zdigits2_bounds m ltac:(lia)) as [_ Hb].
    rewrite <- Z.pow_add_r by lia.
    eapply Z.lt_le_trans; [exact Hb|].
    apply Z.pow_le_mono_r; lia.
  - intros Hlt. destruct (Z.eq_dec (fexp64 (Zdigits2 m + e)) emin64) as [E|E]; [lia|].
    exfalso. assert (Hfe : fexp64 (Zdigits2 m + e) = Zdigits2 m + e - 53)
      by (unfold fexp64 in *; lia).
    assert (Hn' : n = Zdigits2 m - 53) by lia.
    destruct (Z.eq_dec m 0) as [->|Hne].
    { simpl in Hn'. lia. }
    pose proof (Zdigits2_bounds m ltac:(lia)) as [Hb _].
    assert (2 ^ 52 <= m / 2 ^ n).
    { apply Z.div_le_lower_bound; [lia|].
      rewrite Z.mul_comm, <- Z.pow_add_r by lia.
      replace (52 + n) with (Zdigits2 m - 1) by lia. exact Hb. }
    lia.
Qed.

(** The result of [binary_round_aux] on a fine located input: the
    mantissa rounded to nearest even at the exponent of the magnitude. *)
Lemma binary_round_aux_rounded (s : bool) (T D m e : Z) (l : location) :
  located T D m l -> fine m e ->
  let n := shift_of m e in
  binary_round_aux prec emax s m e l
  = float_of_rounded s (rne T (2 ^ n * D)) (e + n).
Proof.
  intros Hl Hf n. rewrite (binary_round_aux_unfold s _ _ _ _ _ Hl). fold n.
  pose proof Hl as (HT & HD & _).
  destruct (first_shift_bounds _ _ _ _ _ Hl Hf) as (Hn & He & Hmin & Hm0 & _ & _).
  fold n in Hn, He, Hmin, Hm0.
  assert (HD' : 0 < 2 ^ n * D)
    by (apply Z.mul_pos_pos; [apply Z.pow_pos_nonneg|]; lia).
  pose proof (rne_bounds T (2 ^ n * D) HT HD') as HM.
  set (M1 := rne T (2 ^ n * D)) in *.
  assert (HM53 : 0 <= M1 <= 2 ^ 53) by lia.
  unfold float_of_rounded.
  destruct (Z.eqb_spec M1 (2 ^ 53)) as [E|E].
  - assert (Hn2 : shift_of M1 (e + n) = 1).
    { rewrite E. unfold shift_of. change (Zdigits2 (2 ^ 53)) with 54.
      unfold fexp64. unfold emin64 in *. lia. }
    rewrite Hn2, E. change (2 ^ 53 / 2 ^ 1) with 4503599627370496.
    change (emax - prec) with 971. change (2 ^ 53) with 9007199254740992.
    cbv iota beta. reflexivity.
  - assert (Hn2 : shift_of M1 (e + n) = 0).
    { unfold shift_of.
      pose proof (Zdigits2_le M1 53 ltac:(lia) ltac:(lia)).
      unfold fexp64. unfold emin64 in *. lia. }
    rewrite Hn2, Z.pow_0_r, Z.div_1_r, Z.add_0_r.
    change (emax - prec) with 971.
    destruct M1 as [|p|p]; try lia; reflexivity.
Qed.

(** *** Order of values *)

Lemma value_le_base (T1 D1 e1 T2 D2 e2 k : Z) :
  k <= e1 -> k <= e2 ->
  (value_le T1 D1 e1 T2 D2 e2 <->
   T1 * 2 ^ (e1 - k) * D2 <= T2 * 2 ^ (e2 - k) * D1).
Proof.
  intros H1 H2. unfold value_le.
  set (mn := Z.min e1 e2).
  assert (Hk : k <= mn) by (unfold mn; lia).
  assert (Hmn1 : mn <= e1) by (unfold mn; lia).
  assert (Hmn2 : mn <= e2) by (unfold mn; lia).
  replace (e1 - k) with ((e1 - mn) + (mn - k)) by lia.
  replace (e2 - k) with ((e2 - mn) + (mn - k)) by lia.
  rewrite !Z.pow_add_r by lia.
  pose proof (Z.pow_pos_nonneg 2 (mn - k) ltac:(lia) ltac:(lia)) as Hp.
  set (P := 2 ^ (mn - k)) in *.
  set (A := T1 * 2 ^ (e1 - mn) * D2). set (B := T2 * 2 ^ (e2 - mn) * D1).
  replace (T1 * (2 ^ (e1 - mn) * P) * D2) with (A * P) by (unfold A; ring).
  replace (T2 * (2 ^ (e2 - mn) * P) * D1) with (B * P) by (unfold B; ring).
  split; intros H.
  - apply Z.mul_le_mono_nonneg_r; lia.
  - apply Z.mul_le_mono_pos_r in H; assumption.
Qed.

(** Shifting either side keeps the order of the values. *)
Lemma value_le_shift (T1 D1 e1 T2 D2 e2 n1 n2 : Z) :
  0 <= n1 -> 0 <= n2 ->
  value_le T1 D1 e1 T2 D2 e2 ->
  value_le T1 (2 ^ n1 * D1) (e1 + n1) T2 (2 ^ n2 * D2) (e2 + n2).
Proof.
  intros H1 H2 H.
  set (k := Z.min e1 e2).
  apply (value_le_base _ _ _ _ _ _ k) in H; try (unfold k; lia).
  apply (value_le_base _ _ _ _ _ _ k); try (unfold k; lia).
  replace (e1 + n1 - k) with ((e1 - k) + n1) by lia.
  replace (e2 + n2 - k) with ((e2 - k) + n2) by lia.
  rewrite !Z.pow_add_r by (unfold k; lia).
  pose proof (Z.pow_pos_nonneg 2 n1 ltac:(lia) H1).
  pose proof (Z.pow_pos_nonneg 2 n2 ltac:(lia) H2).
  set (A := T1 * 2 ^ (e1 - k) * D2) in *. set (B := T2 * 2 ^ (e2 - k) * D1) in *.
  replace (T1 * (2 ^ (e1 - k) * 2 ^ n1) * (2 ^ n2 * D2)) with (A * (2 ^ n1 * 2 ^ n2))
    by (unfold A; ring).
  replace (T2 * (2 ^ (e2 - k) * 2 ^ n2) * (2 ^ n1 * D1)) with (B * (2 ^ n1 * 2 ^ n2))
    by (unfold B; ring).
  apply Z.mul_le_mono_nonneg_r; [|exact H].
  apply Z.mul_nonneg_nonneg; lia.
Qed.

(** Rounding to nearest even is monotone on fractions. *)
Lemma rne_mono (T1 D1 T2 D2 : Z) :
  0 <= T1 -> 0 < D1 -> 0 <= T2 -> 0 < D2 ->
  T1 * D2 <= T2 * D1 -> rne T1 D1 <= rne T2 D2.
Proof.
  intros HT1 HD1 HT2 HD2 H. unfold rne.
  pose proof (Z.div_mod T1 D1 ltac:(lia)) as E1.
  pose proof (Z.mod_pos_bound T1 D1 HD1) as B1.
  pose proof (Z.div_mod T2 D2 ltac:(lia)) as E2.
  pose proof (Z.mod_pos_bound T2 D2 HD2) as B2.
  set (h1 := T1 / D1) in *. set (h2 := T2 / D2) in *.
  set (r1 := T1 mod D1) in *. set (r2 := T2 mod D2) in *.
  assert (Hh : h1 <= h2).
  { destruct (Z.le_gt_cases h1 h2) as [?|Hgt]; [assumption|exfalso].
    assert (G1 : D1 * (h2 + 1) <= T1) by nia.
    assert (G2 : T2 < D2 * (h2 + 1)) by nia.
    assert (G3 : D1 * (h2 + 1) * D2 <= T1 * D2)
      by (apply Z.mul_le_mono_nonneg_r; lia).
    assert (G4 : T2 * D1 < D2 * (h2 + 1) * D1)
      by (apply Z.mul_lt_mono_pos_r; lia).
    lia. }
  pose proof (Z.div_mod h1 2 ltac:(lia)) as F1.
  pose proof (Z.div_mod h2 2 ltac:(lia)) as F2.
  rewrite Zmod_odd in F1, F2.
  assert (Hm : h1 / 2 <= h2 / 2) by (apply Z.div_le_mono; lia).
  destruct (Z.eq_dec (h1 / 2) (h2 / 2)) as [Em|Em].
  2:{ destruct (_ && _), (_ && _); lia. }
  rewrite <- Em in *.
  destruct (Z.odd h1) eqn:O1, (Z.odd h2) eqn:O2; cbn [andb]; try lia.
  - destruct (Z.odd (h1 / 2)); [rewrite !orb_true_r; lia|]. rewrite !orb_false_r.
    destruct (Z.eqb_spec r1 0) as [R1|R1], (Z.eqb_spec r2 0) as [R2|R2];
      cbn [negb]; lia.
  - destruct (_ || _); lia.
Qed.

(** *** Two fine inputs in order *)

Lemma rounded_in_order (T1 D1 m1 e1 T2 D2 m2 e2 : Z) (l1 l2 : location) :
  located T1 D1 m1 l1 -> fine m1 e1 ->
  located T2 D2 m2 l2 -> fine m2 e2 ->
  value_le T1 D1 e1 T2 D2 e2 ->
  let n1 := shift_of m1 e1 in
  let n2 := shift_of m2 e2 in
  let M1 := rne T1 (2 ^ n1 * D1) in
  let M2 := rne T2 (2 ^ n2 * D2) in
  0 <= M1 <= 2 ^ 53 /\ 0 <= M2 <= 2 ^ 53 /\
  emin64 <= e1 + n1 /\ emin64 <= e2 + n2 /\
  pair_le M1 (e1 + n1) M2 (e2 + n2).
Proof.
  intros L1 F1 L2 F2 V n1 n2 M1 M2.
  pose proof L1 as (HT1 & HD1 & _). pose proof L2 as (HT2 & HD2 & _).
  destruct (first_shift_bounds _ _ _ _ _ L1 F1) as (Hn1 & _ & Hmin1 & Hb1 & Hs1 & _).
  destruct (first_shift_bounds _ _ _ _ _ L2 F2) as (Hn2 & _ & Hmin2 & Hb2 & Hs2 & _).
  fold n1 in Hn1, Hmin1, Hb1, Hs1. fold n2 in Hn2, Hmin2, Hb2, Hs2.
  apply (value_le_shift _ _ _ _ _ _ n1 n2 Hn1 Hn2) in V.
  assert (HD1' : 0 < 2 ^ n1 * D1)
    by (apply Z.mul_pos_pos; [apply Z.pow_pos_nonneg|]; lia).
  assert (HD2' : 0 < 2 ^ n2 * D2)
    by (apply Z.mul_pos_pos; [apply Z.pow_pos_nonneg|]; lia).
  set (D1' := 2 ^ n1 * D1) in *. set (D2' := 2 ^ n2 * D2) in *.
  set (E1 := e1 + n1) in *. set (E2 := e2 + n2) in *.
  pose proof (rne_bounds T1 D1' HT1 HD1') as R1. fold M1 in R1.
  pose proof (rne_bounds T2 D2' HT2 HD2') as R2. fold M2 in R2.
  repeat apply conj; try lia.
  unfold pair_le.
  destruct (Z.lt_trichotomy E1 E2) as [Hlt|[Heq|Hgt]].
  - left. split; [assumption|]. lia.
  - right. split; [assumption|]. apply rne_mono; try assumption.
    unfold value_le in V. rewrite Heq, Z.min_id, Z.sub_diag in V.
    change (2 ^ 0) with 1 in V. lia.
  - exfalso.
    assert (H52 : 2 ^ 52 <= T1 / (2 * D1')) by lia.
    assert (HT1' : 2 ^ 53 * D1' <= T1).
    { pose proof (Z.mul_div_le T1 (2 * D1') ltac:(lia)).
      change (2 ^ 53) with (2 * 2 ^ 52). nia. }
    assert (HT2' : T2 < 2 ^ 54 * D2').
    { pose proof (Z.mod_pos_bound T2 (2 * D2') ltac:(lia)).
      pose proof (Z.div_mod T2 (2 * D2') ltac:(lia)).
      change (2 ^ 54) with (2 * 2 ^ 53). nia. }
    unfold value_le in V. rewrite Z.min_r, Z.sub_diag in V by lia.
    change (2 ^ 0) with 1 in V.
    assert (HP : 2 <= 2 ^ (E1 - E2)).
    { change 2 with (2 ^ 1) at 1. apply Z.pow_le_mono_r; lia. }
    set (P := 2 ^ (E1 - E2)) in *.
    assert (2 ^ 53 * D1' * P * D2' <= T2 * D1') by nia.
    assert (T2 * D1' < 2 ^ 54 * D2' * D1') by nia.
    change (2 ^ 54) with (2 * 2 ^ 53) in *.
    set (Q := 2 ^ 53) in *. assert (0 < Q) by (unfold Q; lia). nia.
Qed.

(** *** Order of the floats made of rounded mantissas *)

Lemma SFleb_finite_pos (m1 m2 : positive) (e1 e2 : Z) :
  e1 < e2 \/ (e1 = e2 /\ Z.pos m1 <= Z.pos m2) ->
  SFleb (S754_finite false m1 e1) (S754_finite false m2 e2) = true.
Proof.
  intros H. unfold SFleb, SFcompare.
  destruct (Z.compare_spec e1 e2) as [E|E|E]; try reflexivity; try lia.
  change (Pos.compare_cont Eq m1 m2) with (Z.compare (Z.pos m1) (Z.pos m2)).
  destruct (Z.compare_spec (Z.pos m1) (Z.pos m2)); try reflexivity; lia.
Qed.

Lemma SFleb_finite_neg (m1 m2 : positive) (e1 e2 : Z) :
  e1 < e2 \/ (e1 = e2 /\ Z.pos m1 <= Z.pos m2) ->
  SFleb (S754_finite true m2 e2) (S754_finite true m1 e1) = true.
Proof.
  intros H. unfold SFleb, SFcompare.
  destruct (Z.compare_spec e2 e1) as [E|E|E]; try reflexivity; try lia.
  change (Pos.compare_cont Eq m2 m1) with (Z.compare (Z.pos m2) (Z.pos m1)).
  destruct (Z.compare_spec (Z.pos m2) (Z.pos m1)); try reflexivity; lia.
Qed.

(** The mantissa and exponent once a mantissa of [2^53] is brought back
    to 53 digits. *)
Lemma float_of_rounded_norm (s : bool) (M E : Z) :
  0 <= M <= 2 ^ 53 ->
  float_of_rounded s M E =
  if M =? 0 then S754_zero s
  else if norm_exp M E <=? 971
       then S754_finite s (Z.to_pos (norm_mant M)) (norm_exp M E)
       else S754_infinity s.
Proof.
  intros H. unfold float_of_rounded, norm_exp, norm_mant.
  destruct M as [|p|p]; try lia; [reflexivity|].
  change (Z.pos p =? 0) with false. cbv iota.
  destruct (Z.pos p =? 2 ^ 53); reflexivity.
Qed.

(** Bringing mantissas of [2^53] back to 53 digits keeps the order. *)
Lemma norm_pair (M1 E1 M2 E2 : Z) :
  0 < M1 <= 2 ^ 53 -> 0 <= M2 <= 2 ^ 53 ->
  pair_le M1 E1 M2 E2 ->
  0 < norm_mant M1 < 2 ^ 53 /\ 0 < norm_mant M2 /\
  pair_le (norm_mant M1) (norm_exp M1 E1) (norm_mant M2) (norm_exp M2 E2).
Proof.
  unfold pair_le, norm_exp, norm_mant.
  change (2 ^ 53) with 9007199254740992. change (2 ^ 52) with 4503599627370496.
  intros H1 H2 HP.
  destruct (Z.eqb_spec M1 9007199254740992), (Z.eqb_spec M2 9007199254740992); lia.
Qed.

Lemma float_of_rounded_le (M1 E1 M2 E2 : Z) :
  0 <= M1 <= 2 ^ 53 -> 0 <= M2 <= 2 ^ 53 ->
  pair_le M1 E1 M2 E2 ->
  SFleb (float_of_rounded false M1 E1) (float_of_rounded false M2 E2) = true /\
  SFleb (float_of_rounded true M2 E2) (float_of_rounded true M1 E1) = true.
Proof.
  intros H1 H2 HP.
  rewrite !float_of_rounded_norm by assumption.
  destruct (Z.eqb_spec M1 0) as [Z1|Z1].
  - destruct (M2 =? 0); [split; reflexivity|].
    destruct (norm_exp M2 E2 <=? 971); split; reflexivity.
  - destruct (norm_pair M1 E1 M2 E2 ltac:(lia) H2 HP) as (N1 & N2 & HN).
    assert (HN' : norm_exp M1 E1 < norm_exp M2 E2 \/
                  (norm_exp M1 E1 = norm_exp M2 E2 /\ norm_mant M1 <= norm_mant M2))
      by (unfold pair_le in HN; lia).
    assert (P2 : 0 < M2)
      by (unfold pair_le in HP; change (2 ^ 52) with 4503599627370496 in HP; lia).
    destruct (Z.eqb_spec M2 0) as [Z2|Z2]; [lia|].
    destruct (Z.leb_spec (norm_exp M1 E1) 971) as [L1|L1],
             (Z.leb_spec (norm_exp M2 E2) 971) as [L2|L2];
      try (split; reflexivity); try lia.
    split; [apply SFleb_finite_pos|apply SFleb_finite_neg];
      rewrite !Z2Pos.id by lia; exact HN'.
Qed.

(** *** Division of two integers *)

Lemma new_location_record (a b : Z) :
  0 <= a -> 0 < b ->
  shr_record_of_loc (a / b) (new_location b (a mod b)) = record_of (2 * a) b.
Proof.
  intros Ha Hb.
  pose proof (Z.div_mod a b ltac:(lia)) as E.
  pose proof (Z.mod_pos_bound a b Hb) as B.
  set (q := a / b) in *. set (r := a mod b) in *.
  assert (Hm : 2 * a / (2 * b) = q)
    by (rewrite Z.div_mul_cancel_l by lia; reflexivity).
  set (c := if 2 * r <? b then 0 else 1).
  assert (Hc : 0 <= 2 * r - b * c < b /\ (c = 0 \/ c = 1))
    by (unfold c; destruct (Z.ltb_spec (2 * r) b); lia).
  assert (Hu : 2 * a = b * (2 * q + c) + (2 * r - b * c)) by lia.
  assert (Hd : 2 * a / b = 2 * q + c)
    by (symmetry; eapply Z.div_unique; [left; apply Hc|exact Hu]).
  assert (Hr : (2 * a) mod b = 2 * r - b * c)
    by (symmetry; eapply Z.mod_unique; [left; apply Hc|exact Hu]).
  assert (Ho : Z.odd (2 * q + c) = (c =? 1)).
  { rewrite Z.odd_add, Z.odd_mul. destruct Hc as [_ [-> | ->]]; reflexivity. }
  unfold record_of. rewrite Hm, Hd, Hr, Ho.
  assert (Hpar : Z.even b = false -> 2 * r <> b /\ 2 * r + 1 <> b + 1).
  { intros Ev. assert (Hob : Z.odd b = true) by (rewrite <- Z.negb_even, Ev; reflexivity).
    apply Z.odd_spec in Hob. destruct Hob as [k Hk]. lia. }
  assert (Hcdef : c = if 2 * r <? b then 0 else 1) by reflexivity.
  clearbody c.
  assert (Hfin : forall l,
             (l = loc_Exact -> c = 0 /\ 2 * r - b * c = 0) ->
             (l = loc_Inexact Lt -> c = 0 /\ 2 * r - b * c <> 0) ->
             (l = loc_Inexact Eq -> c = 1 /\ 2 * r - b * c = 0) ->
             (l = loc_Inexact Gt -> c = 1 /\ 2 * r - b * c <> 0) ->
             shr_record_of_loc q l
             = {| shr_m := q; shr_r := c =? 1; shr_s := negb (2 * r - b * c =? 0) |}).
  { intros l H1 H2 H3 H4. unfold shr_record_of_loc.
    destruct l as [|[| |]];
      [destruct (H1 eq_refl) as [-> G]|destruct (H3 eq_refl) as [-> G]
      |destruct (H2 eq_refl) as [-> G]|destruct (H4 eq_refl) as [-> G]];
      match goal with |- context [Z.eqb ?x 0] => destruct (Z.eqb_spec x 0) end;
      try lia; reflexivity. }
  apply Hfin; unfold new_location, new_location_even, new_location_odd;
    destruct (Z.even b) eqn:Ev; try specialize (Hpar eq_refl);
    destruct (Z.eqb_spec r 0) as [R|R]; try discriminate;
    try (intros _; subst c; destruct (Z.ltb_spec (2 * r) b); lia).
  all: try (destruct (Z.compare_spec (2 * r) b) as [C|C|C]; try discriminate;
            intros _; subst c; destruct (Z.ltb_spec (2 * r) b); lia).
  all: destruct (Z.compare_spec (2 * r + 1) b) as [C|C|C]; try discriminate;
       intros _; subst c; destruct (Z.ltb_spec (2 * r) b); lia.
Qed.

Lemma div_exp_nonpos (a b : Z) : div_exp a b <= 0.
Proof. unfold div_exp. lia. Qed.

Lemma div_num_pos (a b : Z) : 0 < a -> 0 < div_num a b.
Proof.
  intros H. unfold div_num. apply Z.mul_pos_pos; [assumption|].
  apply Z.pow_pos_nonneg; pose proof (div_exp_nonpos a b); lia.
Qed.

Lemma div_located (a b : Z) :
  0 < a -> 0 < b ->
  located (2 * div_num a b) b (div_mant a b)
          (new_location b (div_num a b mod b)).
Proof.
  intros Ha Hb. pose proof (div_num_pos a b Ha).
  repeat split; try lia. apply new_location_record; lia.
Qed.

Lemma div_fine (a b : Z) : 0 < a -> 0 < b -> fine (div_mant a b) (div_exp a b).
Proof.
  intros Ha Hb. unfold fine.
  set (e := div_exp a b). set (q := div_mant a b).
  pose proof (fexp64_ge (Zdigits2 q + e)) as [_ Hmin].
  destruct (Z.le_gt_cases e emin64) as [?|He]; [lia|].
  set (g := Zdigits2 a - Zdigits2 b).
  assert (Hg : e <= g - 53).
  { unfold e, div_exp in *. fold g in He |- *. unfold fexp64 in *. lia. }
  pose proof (Zdigits2_bounds a Ha) as [Ha1 _].
  pose proof (Zdigits2_bounds b Hb) as [_ Hb2].
  pose proof (Zdigits2_pos a Ha). pose proof (Zdigits2_pos b Hb).
  pose proof (div_exp_nonpos a b) as He0. fold e in He0.
  assert (Hq : 2 ^ (g - 1 - e) <= q).
  { unfold q, div_mant, div_num. fold e.
    apply Z.div_le_lower_bound; [lia|].
    apply Z.le_trans with (2 ^ Zdigits2 b * 2 ^ (g - 1 - e)).
    - apply Z.mul_le_mono_nonneg_r; [apply Z.pow_nonneg|]; lia.
    - rewrite <- Z.pow_add_r by lia.
      replace (Zdigits2 b + (g - 1 - e)) with ((Zdigits2 a - 1) + - e)
        by (unfold g; lia).
      rewrite Z.pow_add_r by lia.
      apply Z.mul_le_mono_nonneg_r; [apply Z.pow_nonneg|]; lia. }
  pose proof (Zdigits2_ge q (g - 1 - e) ltac:(lia) Hq).
  apply Z.le_trans with (fexp64 g).
  - unfold fexp64. lia.
  - apply fexp64_mono. lia.
Qed.

Lemma SFdiv_core_int (pa pb : positive) :
  SFdiv_core_binary prec emax (Z.pos pa) 0 (Z.pos pb) 0
  = (div_mant (Z.pos pa) (Z.pos pb), div_exp (Z.pos pa) (Z.pos pb),
     new_location (Z.pos pb) (div_num (Z.pos pa) (Z.pos pb) mod Z.pos pb)).
Proof.
  unfold SFdiv_core_binary. rewrite !Z.add_0_r, fexp_eq.
  change (0 - 0) with 0. fold (div_exp (Z.pos pa) (Z.pos pb)).
  pose proof (div_exp_nonpos (Z.pos pa) (Z.pos pb)) as He.
  set (e := div_exp (Z.pos pa) (Z.pos pb)) in *.
  assert (Hm : match 0 - e with
               | Z.pos _ => Z.shiftl (Z.pos pa) (0 - e)
               | 0 => Z.pos pa
               | Z.neg _ => 0
               end = div_num (Z.pos pa) (Z.pos pb)).
  { unfold div_num. fold e. replace (0 - e) with (- e) by lia.
    destruct (- e) as [|s|s] eqn:Es; try lia.
    now rewrite Z.shiftl_mul_pow2 by lia. }
  rewrite Hm. unfold div_mant.
  unfold Z.div, Z.modulo.
  destruct (Z.div_eucl (div_num (Z.pos pa) (Z.pos pb)) (Z.pos pb)); reflexivity.
Qed.

(** The quotient of two positive integers, as a rounded float. *)
Lemma SFdiv_int_rounded (sa sb : bool) (pa pb : positive) :
  SFdiv prec emax (S754_finite sa pa 0) (S754_finite sb pb 0)
  = float_of_rounded (xorb sa sb)
      (quotient_mant (Z.pos pa) (Z.pos pb)) (quotient_exp (Z.pos pa) (Z.pos pb)).
Proof.
  unfold SFdiv. rewrite SFdiv_core_int.
  rewrite (binary_round_aux_rounded _ _ _ _ _ _
             (div_located _ _ (Pos2Z.is_pos pa) (Pos2Z.is_pos pb))
             (div_fine _ _ (Pos2Z.is_pos pa) (Pos2Z.is_pos pb))).
  reflexivity.
Qed.

Lemma quotient_exp_eq (a b : Z) :
  0 < a -> 0 < b ->
  quotient_exp a b = fexp64 (Zdigits2 (div_mant a b) + div_exp a b).
Proof.
  intros Ha Hb.
  destruct (first_shift_bounds _ _ _ _ _ (div_located a b Ha Hb) (div_fine a b Ha Hb))
    as (_ & He & _).
  exact He.
Qed.

(** Quotients by the same divisor are rounded in order. *)
Lemma quotient_in_order (a1 a2 b : Z) :
  0 < a1 -> a1 <= a2 -> 0 < b ->
  0 <= quotient_mant a1 b <= 2 ^ 53 /\ 0 <= quotient_mant a2 b <= 2 ^ 53 /\
  pair_le (quotient_mant a1 b) (quotient_exp a1 b)
          (quotient_mant a2 b) (quotient_exp a2 b).
Proof.
  intros H1 H12 Hb. assert (H2 : 0 < a2) by lia.
  destruct (rounded_in_order _ _ _ _ _ _ _ _ _ _
              (div_located a1 b H1 Hb) (div_fine a1 b H1 Hb)
              (div_located a2 b H2 Hb) (div_fine a2 b H2 Hb))
    as (B1 & B2 & _ & _ & P); [|auto].
  pose proof (div_exp_nonpos a1 b) as E1. pose proof (div_exp_nonpos a2 b) as E2.
  apply (value_le_base _ _ _ _ _ _ (div_exp a1 b + div_exp a2 b)); try lia.
  unfold div_num.
  replace (div_exp a1 b - (div_exp a1 b + div_exp a2 b)) with (- div_exp a2 b) by lia.
  replace (div_exp a2 b - (div_exp a1 b + div_exp a2 b)) with (- div_exp a1 b) by lia.
  pose proof (Z.pow_pos_nonneg 2 (- div_exp a1 b) ltac:(lia) ltac:(lia)) as P1.
  pose proof (Z.pow_pos_nonneg 2 (- div_exp a2 b) ltac:(lia) ltac:(lia)) as P2.
  set (p1 := 2 ^ (- div_exp a1 b)) in *. set (p2 := 2 ^ (- div_exp a2 b)) in *.
  replace (2 * (a1 * p1) * p2 * b) with (a1 * (2 * p1 * p2 * b)) by ring.
  replace (2 * (a2 * p2) * p1 * b) with (a2 * (2 * p1 * p2 * b)) by ring.
  apply Z.mul_le_mono_nonneg_r; [|assumption].
  repeat apply Z.mul_nonneg_nonneg; lia.
Qed.

(** A quotient below [2^1023] does not round to infinity. *)
Lemma quotient_exp_bound (a b : Z) :
  0 < a -> 0 < b -> a < 2 ^ 1023 * b ->
  norm_exp (quotient_mant a b) (quotient_exp a b) <= 971.
Proof.
  intros Ha Hb Hlt.
  rewrite quotient_exp_eq by assumption.
  pose proof (div_exp_nonpos a b) as He.
  set (e := div_exp a b) in *. set (q := div_mant a b).
  assert (Hq : 0 <= q < 2 ^ (1023 - e)).
  { unfold q, div_mant, div_num. fold e. split.
    - apply Z.div_pos; [|lia]. apply Z.mul_nonneg_nonneg; [lia|].
      apply Z.pow_nonneg; lia.
    - apply Z.div_lt_upper_bound; [lia|].
      replace (1023 - e) with (1023 + - e) by lia.
      rewrite Z.pow_add_r by lia.
      pose proof (Z.pow_pos_nonneg 2 (- e) ltac:(lia) ltac:(lia)) as P.
      set (p := 2 ^ (- e)) in *.
      replace (b * (2 ^ 1023 * p)) with (2 ^ 1023 * b * p) by ring.
      apply Z.mul_lt_mono_pos_r; assumption. }
  pose proof (Zdigits2_le q (1023 - e) ltac:(lia) Hq) as Hd.
  assert (fexp64 (Zdigits2 q + e) <= 970) by (unfold fexp64, emin64; lia).
  unfold norm_exp. destruct (_ =? _); lia.
Qed.

(** *** Multiplication by a constant float *)

Lemma product_located (m c : Z) :
  0 < m -> 0 < c -> located (2 * (m * c)) 1 (m * c) loc_Exact.
Proof. intros Hm Hc. apply located_exact. nia. Qed.

Lemma product_fine (m e c k : Z) :
  0 < m -> 2 ^ 52 <= c -> fine (m * c) (e + k).
Proof.
  intros Hm Hc. unfold fine.
  assert (2 ^ 52 <= m * c) by nia.
  pose proof (Zdigits2_ge (m * c) 52 ltac:(lia) H).
  pose proof (fexp64_ge (Zdigits2 (m * c) + (e + k))). lia.
Qed.

Lemma SFmul_rounded (s : bool) (mx mc : positive) (ex k : Z) :
  2 ^ 52 <= Z.pos mc ->
  SFmul prec emax (S754_finite s mx ex) (S754_finite false mc k)
  = float_of_rounded s (product_mant (Z.pos mx) ex (Z.pos mc) k)
                       (product_exp (Z.pos mx) ex (Z.pos mc) k).
Proof.
  intros Hc. unfold SFmul. rewrite xorb_false_r.
  change (Z.pos (mx * mc)) with (Z.pos mx * Z.pos mc).
  rewrite (binary_round_aux_rounded _ _ _ _ _ _
             (product_located _ _ (Pos2Z.is_pos mx) (Pos2Z.is_pos mc))
             (product_fine _ ex _ k (Pos2Z.is_pos mx) Hc)).
  reflexivity.
Qed.

(** Products of ordered floats by the same constant are rounded in order. *)
Lemma product_in_order (m1 e1 m2 e2 c k : Z) :
  0 < m1 < 2 ^ 53 -> 0 < m2 -> 2 ^ 52 <= c ->
  pair_le m1 e1 m2 e2 ->
  0 <= product_mant m1 e1 c k <= 2 ^ 53 /\ 0 <= product_mant m2 e2 c k <= 2 ^ 53 /\
  pair_le (product_mant m1 e1 c k) (product_exp m1 e1 c k)
          (product_mant m2 e2 c k) (product_exp m2 e2 c k).
Proof.
  intros H1 H2 Hc HP. assert (Hc0 : 0 < c) by lia.
  destruct (rounded_in_order _ _ _ _ _ _ _ _ _ _
              (product_located m1 c ltac:(lia) Hc0) (product_fine m1 e1 c k ltac:(lia) Hc)
              (product_located m2 c H2 Hc0) (product_fine m2 e2 c k H2 Hc))
    as (B1 & B2 & _ & _ & P); [|auto].
  assert (He : e1 <= e2) by (unfold pair_le in HP; lia).
  apply (value_le_base _ _ _ _ _ _ (e1 + k)); try lia.
  rewrite Z.sub_diag, Z.pow_0_r, !Z.mul_1_r.
  replace (e2 + k - (e1 + k)) with (e2 - e1) by lia.
  destruct HP as [[Hlt Hn]|[Heq Hle]].
  - assert (HP2 : 2 <= 2 ^ (e2 - e1)).
    { change 2 with (2 ^ 1) at 1. apply Z.pow_le_mono_r; lia. }
    set (P := 2 ^ (e2 - e1)) in *.
    change (2 ^ 53) with (2 * 2 ^ 52) in H1.
    assert (m1 <= m2 * P) by nia.
    replace (2 * (m2 * c) * P) with (2 * c * (m2 * P)) by ring.
    replace (2 * (m1 * c)) with (2 * c * m1) by ring.
    apply Z.mul_le_mono_nonneg_l; lia.
  - rewrite Heq, Z.sub_diag, Z.pow_0_r.
    replace (2 * (m2 * c) * 1) with (2 * c * m2) by ring.
    replace (2 * (m1 * c)) with (2 * c * m1) by ring.
    apply Z.mul_le_mono_nonneg_l; lia.
Qed.

End RoundingFacts.

(** ** Python's division and multiplication, rounded *)

Module NumberFacts.

Import PyNum Rounding RoundingFacts Script ProgressSpec.

Lemma float_of_int_100 : float_of_int 100 = Ret hundred.
Proof. reflexivity. Qed.

Lemma float_mul_int_100 (q : float) :
  float_mul_int q 100 = Ret (SFmul prec emax q hundred).
Proof. unfold float_mul_int. now rewrite float_of_int_100. Qed.

Lemma SFleb_nonpos_nonneg (x y : float) :
  nonpos_float x = true -> nonneg_float y = true -> SFleb x y = true.
Proof.
  destruct x as [sx|[|]| |[|] mx ex], y as [sy|[|]| |[|] my ey];
    simpl; intros; try discriminate; reflexivity.
Qed.

Lemma float_of_rounded_sign (s : bool) (M E : Z) :
  0 <= M ->
  (if s then nonpos_float else nonneg_float) (float_of_rounded s M E) = true.
Proof.
  intros H. unfold float_of_rounded.
  destruct M as [|p|p]; try lia; destruct s;
    repeat match goal with |- context [if ?c then _ else _] => destruct c end;
    reflexivity.
Qed.

(** [a / b] for a positive divisor. *)
Lemma int_truediv_shape (a b : Z) :
  0 < b ->
  int_truediv a b =
  match a with
  | Z0 => Ret (S754_zero false)
  | Zpos _ =>
      overflow_check "integer division result too large for a float"
        (float_of_rounded false (quotient_mant a b) (quotient_exp a b))
  | Zneg _ =>
      overflow_check "integer division result too large for a float"
        (float_of_rounded true (quotient_mant (- a) b) (quotient_exp (- a) b))
  end.
Proof.
  intros Hb. unfold int_truediv.
  destruct (Z.eqb_spec b 0); [lia|].
  destruct b as [|pb|pb]; try lia.
  destruct a as [|pa|pa]; unfold exact_of_int.
  - reflexivity.
  - now rewrite SFdiv_int_rounded.
  - now rewrite SFdiv_int_rounded.
Qed.

(** The only exception of [a / b] with [b] positive is [OverflowError]. *)
Lemma int_truediv_raises (a b : Z) (e : exn) :
  0 < b -> int_truediv a b = Raise e -> exn_cls e = OverflowError.
Proof.
  intros Hb. rewrite int_truediv_shape by assumption.
  unfold overflow_check.
  destruct a; try discriminate;
    destruct (float_of_rounded _ _ _); try discriminate; now intros [= <-].
Qed.

(** No overflow for a numerator below [2^1023] in absolute value. *)
Lemma int_truediv_returns (a b : Z) :
  0 < b -> Z.abs a < 2 ^ 1023 -> exists q, int_truediv a b = Ret q.
Proof.
  intros Hb Ha. rewrite int_truediv_shape by assumption.
  assert (Hfin : forall s x, 0 < x -> x < 2 ^ 1023 ->
            exists q,
              overflow_check "integer division result too large for a float"
                (float_of_rounded s (quotient_mant x b) (quotient_exp x b)) = Ret q).
  { intros s x Hx Hlt.
    pose proof (quotient_exp_bound x b Hx Hb ltac:(nia)) as He.
    destruct (quotient_in_order x x b Hx ltac:(lia) Hb) as (HM & _).
    rewrite float_of_rounded_norm by assumption. unfold overflow_check.
    destruct (_ =? 0); [eauto|].
    destruct (Z.leb_spec (norm_exp (quotient_mant x b) (quotient_exp x b)) 971);
      [eauto|lia]. }
  destruct a as [|pa|pa]; [eauto|apply Hfin; lia|apply Hfin; lia].
Qed.

(** *** Monotonicity *)

Lemma hundred_mantissa : 2 ^ 52 <= 7036874417766400.
Proof. change (2 ^ 52) with 4503599627370496. lia. Qed.

Lemma product_mant_nonneg (m e c k : Z) :
  0 < m -> 0 < c -> 0 <= product_mant m e c k.
Proof.
  intros Hm Hc. unfold product_mant.
  set (n := shift_of (m * c) (e + k)).
  assert (0 < 2 ^ n * 1)
    by (rewrite Z.mul_1_r; apply Z.pow_pos_nonneg; unfold n, shift_of; lia).
  pose proof (rne_bounds (2 * (m * c)) (2 ^ n * 1) ltac:(nia) H).
  pose proof (Z.div_pos (2 * (m * c)) (2 * (2 ^ n * 1)) ltac:(nia) ltac:(lia)).
  lia.
Qed.

(** [q * 100] for a rounded [q] that is not infinite. *)
Lemma times_hundred_shape (s : bool) (M E : Z) :
  0 <= M <= 2 ^ 53 -> float_of_rounded s M E <> S754_infinity s ->
  SFmul prec emax (float_of_rounded s M E) hundred =
  if M =? 0 then S754_zero s
  else float_of_rounded s
         (product_mant (norm_mant M) (norm_exp M E) 7036874417766400 (-46))
         (product_exp (norm_mant M) (norm_exp M E) 7036874417766400 (-46)).
Proof.
  intros HM HF. rewrite float_of_rounded_norm in HF |- * by assumption.
  destruct (Z.eqb_spec M 0) as [Hz|Hz].
  - simpl. now rewrite xorb_false_r.
  - destruct (norm_exp M E <=? 971); [|congruence].
    unfold hundred. rewrite SFmul_rounded by exact hundred_mantissa.
    assert (0 < norm_mant M).
    { unfold norm_mant. destruct (Z.eqb_spec M (2 ^ 53)); [reflexivity|lia]. }
    now rewrite Z2Pos.id by assumption.
Qed.

Lemma times_hundred_sign (s : bool) (M E : Z) :
  0 <= M <= 2 ^ 53 -> float_of_rounded s M E <> S754_infinity s ->
  (if s then nonpos_float else nonneg_float)
    (SFmul prec emax (float_of_rounded s M E) hundred) = true.
Proof.
  intros HM HF. rewrite times_hundred_shape by assumption.
  destruct (Z.eqb_spec M 0) as [Hz|Hz]; [destruct s; reflexivity|].
  apply float_of_rounded_sign, product_mant_nonneg; [|lia].
  unfold norm_mant. destruct (Z.eqb_spec M (2 ^ 53)); [reflexivity|lia].
Qed.

(** Rounded mantissa-exponent pairs in order give percentages in order. *)
Lemma percent_in_order (M1 E1 M2 E2 : Z) :
  0 <= M1 <= 2 ^ 53 -> 0 <= M2 <= 2 ^ 53 ->
  pair_le M1 E1 M2 E2 ->
  (forall s, float_of_rounded s M1 E1 <> S754_infinity s) ->
  (forall s, float_of_rounded s M2 E2 <> S754_infinity s) ->
  SFleb (SFmul prec emax (float_of_rounded false M1 E1) hundred)
        (SFmul prec emax (float_of_rounded false M2 E2) hundred) = true /\
  SFleb (SFmul prec emax (float_of_rounded true M2 E2) hundred)
        (SFmul prec emax (float_of_rounded true M1 E1) hundred) = true.
Proof.
  intros H1 H2 HP F1 F2.
  destruct (Z.eq_dec M1 0) as [Hz|Hz].
  - split; apply SFleb_nonpos_nonneg.
    + rewrite times_hundred_shape by auto. subst M1. reflexivity.
    + exact (times_hundred_sign false M2 E2 H2 (F2 false)).
    + exact (times_hundred_sign true M2 E2 H2 (F2 true)).
    + rewrite times_hundred_shape by auto. subst M1. reflexivity.
  - destruct (norm_pair M1 E1 M2 E2 ltac:(lia) H2 HP) as (N1 & N2 & NP).
    assert (Hz2 : M2 <> 0) by (unfold pair_le in HP; change (2 ^ 52) with 4503599627370496 in HP; lia).
    rewrite !times_hundred_shape by auto.
    apply Z.eqb_neq in Hz, Hz2. rewrite Hz, Hz2.
    destruct (product_in_order _ _ _ _ 7036874417766400 (-46) N1 N2
                hundred_mantissa NP) as (B1 & B2 & PP).
    exact (float_of_rounded_le _ _ _ _ B1 B2 PP).
Qed.

Lemma not_infinite_any_sign (s s' : bool) (M E : Z) :
  float_of_rounded s M E <> S754_infinity s ->
  float_of_rounded s' M E <> S754_infinity s'.
Proof.
  unfold float_of_rounded. destruct M as [|p|p]; try discriminate.
  repeat match goal with |- context [if ?c then _ else _] => destruct c end;
    try discriminate; intros H; now contradiction H.
Qed.

Lemma returned_float (text : string) (f q : float) :
  overflow_check text f = Ret q -> f = q /\ forall s, f <> S754_infinity s.
Proof.
  unfold overflow_check.
  destruct f; intros [= <-]; split; try reflexivity; discriminate.
Qed.

(** For a positive divisor, [(d / ts) * 100] is monotone in [d]. *)
Lemma percent_floats_in_order (d1 d2 ts : Z) (q1 q2 : float) :
  0 < ts -> d1 <= d2 ->
  int_truediv d1 ts = Ret q1 -> int_truediv d2 ts = Ret q2 ->
  SFleb (SFmul prec emax q1 hundred) (SFmul prec emax q2 hundred) = true.
Proof.
  intros Hts Hd. rewrite !int_truediv_shape by assumption.
  assert (Hzero : SFmul prec emax (S754_zero false) hundred = S754_zero false)
    by reflexivity.
  assert (Hsign : forall s x q,
            0 < x ->
            overflow_check "integer division result too large for a float"
              (float_of_rounded s (quotient_mant x ts) (quotient_exp x ts)) = Ret q ->
            (if s then nonpos_float else nonneg_float)
              (SFmul prec emax q hundred) = true).
  { intros s x q Hx Hq. apply returned_float in Hq. destruct Hq as [<- Hf].
    destruct (quotient_in_order x x ts Hx ltac:(lia) Hts) as (HM & _).
    apply times_hundred_sign; auto. }
  destruct d1 as [|p1|p1], d2 as [|p2|p2]; try lia; intros R1 R2.
  - injection R1 as <-. injection R2 as <-. reflexivity.
  - injection R1 as <-. apply SFleb_nonpos_nonneg; [reflexivity|].
    exact (Hsign false _ _ (Pos2Z.is_pos p2) R2).
  - apply returned_float in R1, R2. destruct R1 as [<- F1], R2 as [<- F2].
    destruct (quotient_in_order (Z.pos p1) (Z.pos p2) ts (Pos2Z.is_pos p1) Hd Hts)
      as (B1 & B2 & P).
    apply (percent_in_order _ _ _ _ B1 B2 P).
    + intros s. apply (not_infinite_any_sign false). apply F1.
    + intros s. apply (not_infinite_any_sign false). apply F2.
  - injection R2 as <-. apply SFleb_nonpos_nonneg; [|reflexivity].
    exact (Hsign true _ _ (Pos2Z.pos_is_pos p1) R1).
  - apply SFleb_nonpos_nonneg.
    + exact (Hsign true _ _ (Pos2Z.pos_is_pos p1) R1).
    + exact (Hsign false _ _ (Pos2Z.is_pos p2) R2).
  - apply returned_float in R1, R2. destruct R1 as [<- F1], R2 as [<- F2].
    change (- Z.neg p1) with (Z.pos p1) in *. change (- Z.neg p2) with (Z.pos p2) in *.
    destruct (quotient_in_order (Z.pos p2) (Z.pos p1) ts (Pos2Z.is_pos p2)
                ltac:(lia) Hts) as (B2 & B1 & P).
    apply (percent_in_order _ _ _ _ B2 B1 P).
    + intros s. apply (not_infinite_any_sign true). apply F2.
    + intros s. apply (not_infinite_any_sign true). apply F1.
Qed.

End NumberFacts.

(** ** The number model on values computed by CPython *)

Module NumberExamples.

Import PyNum.

(** [(2**60 + 1) / 3] is [0x1.5555555555555p+58]. *)
Example truediv_rounds_to_nearest :
  int_truediv (2 ^ 60 + 1) 3 = Ret (S754_finite false 6004799503160661 6).
Proof. vm_compute. reflexivity. Qed.

(** Ties go to even, also among the subnormals: [3 / 2**1075] is twice the
    smallest float and [1 / 2**1075] is zero. *)
Example truediv_ties_to_even :
  int_truediv 3 (2 ^ 1075) = Ret (S754_finite false 2 (-1074))
  /\ int_truediv 1 (2 ^ 1075) = Ret (S754_zero false).
Proof. split; vm_compute; reflexivity. Qed.

(** The sign of a zero quotient: [-1 / 2**1080] and [0 / -5] are [-0.0]. *)
Example truediv_negative_zero :
  int_truediv (-1) (2 ^ 1080) = Ret (S754_zero true)
  /\ int_truediv 0 (-5) = Ret (S754_zero true).
Proof. split; vm_compute; reflexivity. Qed.

(** The largest float is reached; half a unit above it, the division
    overflows. *)
Example truediv_overflow_threshold :
  int_truediv (2 ^ 1024 - 2 ^ 970 - 1) 1 = Ret (S754_finite false 9007199254740991 971)
  /\ int_truediv (2 ^ 1024 - 2 ^ 970) 1
     = Raise (mk_exn OverflowError "integer division result too large for a float").
Proof. split; vm_compute; reflexivity. Qed.

Example truediv_by_zero :
  int_truediv 1 0 = Raise (mk_exn ZeroDivisionError "division by zero").
Proof. reflexivity. Qed.

(** [format(x, '.1f')] and [format(x, '.2f')]: the binary value decides,
    ties go to even, a negative value that rounds to zero keeps its sign. *)
Example format_samples :
  rbind (int_truediv 1 4) (fun x => Ret (format_float 1 x)) = Ret "0.2"%string
  /\ rbind (int_truediv 35 100) (fun x => Ret (format_float 1 x)) = Ret "0.3"%string
  /\ rbind (int_truediv 2675 1000) (fun x => Ret (format_float 2 x)) = Ret "2.67"%string
  /\ rbind (int_truediv 996 100) (fun x => Ret (format_float 1 x)) = Ret "10.0"%string
  /\ rbind (int_truediv (-1) 1048576) (fun x => Ret (format_float 1 x)) = Ret "-0.0"%string
  /\ format_f 1 (PyInt 0) = Ret "0.0"%string.
Proof. repeat split; vm_compute; reflexivity. Qed.

End NumberExamples.

(** ** Text that every standard output can encode *)

Module TextFacts.

Import PyNum Env Script Report.

Lemma is_ascii_app (a b : string) :
  is_ascii (a ++ b) = is_ascii a && is_ascii b.
Proof.
  induction a as [|c a IH]; simpl; [reflexivity|].
  now rewrite IH, andb_assoc.
Qed.

Lemma is_ascii_repeat (s : string) (n : nat) :
  is_ascii s = true -> is_ascii (string_repeat s n) = true.
Proof.
  intros H. induction n as [|n IH]; simpl; [reflexivity|].
  now rewrite is_ascii_app, H, IH.
Qed.

Lemma is_ascii_take (n : nat) :
  forall s, is_ascii s = true -> is_ascii (string_take n s) = true.
Proof.
  induction n as [|n IH]; intros [|c s] H; simpl in *; try reflexivity.
  apply andb_true_iff in H. destruct H as [-> H]. now rewrite IH.
Qed.

Lemma is_ascii_drop (n : nat) :
  forall s, is_ascii s = true -> is_ascii (string_drop n s) = true.
Proof.
  induction n as [|n IH]; intros [|c s] H; simpl in *; try assumption.
  apply andb_true_iff in H. destruct H as [_ H]. now apply IH.
Qed.

Lemma digit_char_ascii (d : Z) :
  0 <= d < 10 -> is_ascii_char (digit_char d) = true.
Proof.
  intros H.
  assert (E : d = 0 \/ d = 1 \/ d = 2 \/ d = 3 \/ d = 4
              \/ d = 5 \/ d = 6 \/ d = 7 \/ d = 8 \/ d = 9) by lia.
  repeat (destruct E as [->|E]; [reflexivity|]). now subst d.
Qed.

Lemma dec_digits_ascii (fuel : nat) :
  forall n acc, is_ascii acc = true -> is_ascii (dec_digits fuel n acc) = true.
Proof.
  induction fuel as [|k IH]; intros n acc H; cbn [dec_digits]; [assumption|].
  assert (Hd : is_ascii (String (digit_char (n mod 10)) acc) = true).
  { cbn [is_ascii]. rewrite H, digit_char_ascii; [reflexivity|].
    apply Z.mod_pos_bound. lia. }
  destruct (n / 10 =? 0); [assumption|now apply IH].
Qed.

Lemma fixed_point_text_ascii (n : Z) (digits : nat) :
  is_ascii (fixed_point_text n digits) = true.
Proof.
  unfold fixed_point_text.
  set (padded := (string_repeat "0" _ ++ string_of_Z_nonneg n)%string).
  assert (Hp : is_ascii padded = true).
  { unfold padded. rewrite is_ascii_app, is_ascii_repeat by reflexivity.
    unfold string_of_Z_nonneg. now rewrite dec_digits_ascii. }
  destruct digits; [assumption|].
  rewrite !is_ascii_app, is_ascii_take, is_ascii_drop by assumption.
  reflexivity.
Qed.

(** A float printed with [.Nf] is ASCII text. *)
Lemma format_float_ascii (digits : nat) (x : float) :
  is_ascii (format_float digits x) = true.
Proof.
  destruct x as [s|s| |s m e]; unfold format_float.
  - rewrite is_ascii_app, fixed_point_text_ascii. now destruct s.
  - now destruct s.
  - reflexivity.
  - rewrite is_ascii_app, fixed_point_text_ascii. now destruct s.
Qed.

Lemma format_f_ascii (digits : nat) (v : pyval) (s : string) :
  format_f digits v = Ret s -> is_ascii s = true.
Proof.
  unfold format_f. destruct (float_of_pyval v) as [x|e]; simpl; [|discriminate].
  intros [= <-]. apply format_float_ascii.
Qed.

(** So is a progress line. *)
Lemma progress_line_ascii (v : progress) (line : string) :
  progress_line v = Ret line -> is_ascii line = true.
Proof.
  unfold progress_line.
  destruct (format_f 1 (percent v)) as [p|e] eqn:P; cbn [rbind]; [|discriminate].
  destruct (format_f 1 (PyFloat (mb_downloaded v))) as [d|e] eqn:D; cbn [rbind]; [|discriminate].
  destruct (format_f 1 (PyFloat (mb_total v))) as [t|e] eqn:T; cbn [rbind]; [|discriminate].
  intros [= <-].
  repeat (progress cbn [is_ascii] || rewrite is_ascii_app).
  rewrite (format_f_ascii _ _ _ P), (format_f_ascii _ _ _ D), (format_f_ascii _ _ _ T).
  reflexivity.
Qed.

Lemma write_error_ascii (out : stdout) (s : string) :
  is_ascii s = true -> write_error out s = None.
Proof. unfold write_error. now intros ->. Qed.

(** [print] writes the text and a line feed, or raises what the stream
    raises for the text. *)
Lemma print_run (out : stdout) (s : string) (fs : dir) :
  print out s fs =
  match write_error out s with
  | Some x => (Raise x, fs, [])
  | None => (Ret tt, fs, [EvPrint (s ++ LF)])
  end.
Proof.
  unfold print, print_end. destruct (write_error out s); reflexivity.
Qed.

Lemma print_ascii (out : stdout) (s : string) (fs : dir) :
  is_ascii s = true -> print out s fs = (Ret tt, fs, [EvPrint (s ++ LF)]).
Proof. intros H. now rewrite print_run, write_error_ascii. Qed.

Lemma print_end_ascii (out : stdout) (s e : string) (fs : dir) :
  is_ascii s = true -> is_ascii e = true ->
  print_end out s e fs = (Ret tt, fs, [EvPrint (s ++ e)]).
Proof.
  intros Hs He. unfold print_end. now rewrite !write_error_ascii.
Qed.

End TextFacts.
Module ScriptFacts.

Import PyNum Env Script Report EnvFacts TextFacts.

Lemma append_assoc (a b c : string) : (a ++ (b ++ c) = (a ++ b) ++ c)%string.
Proof. induction a as [|x a IH]; simpl; [reflexivity|now rewrite IH]. Qed.

Lemma append_nil_r (a : string) : (a ++ "" = a)%string.
Proof. induction a as [|x a IH]; simpl; [reflexivity|now rewrite IH]. Qed.


(** The banner is ASCII text: it is printed whatever the encoding. *)
Lemma banner_run (out : stdout) (fs : dir) :
  banner out fs = (Ret tt, fs, banner_events).
Proof. reflexivity. Qed.

(** The [except] clause prints its four lines, or raises at the first. *)
Lemma report_failure_run (out : stdout) (e : exn) (fs : dir) :
  report_failure out e fs =
  match write_error out (error_text e) with
  | Some x => (Raise x, fs, [])
  | None => (Ret tt, fs, failure_events e)
  end.
Proof.
  unfold report_failure, bind at 1. rewrite print_run.
  change (LF ++ "✗ Error: " ++ exn_text e)%string with (error_text e).
  destruct (write_error out (error_text e)); [reflexivity|].
  unfold failure_events, error_text, error_line. cbn. repeat f_equal.
Qed.


Lemma os_makedirs_run (p : string) (fs : dir) :
  os_makedirs p fs =
  match fs_makedirs p fs with
  | Ret fs1 => (Ret tt, fs1, [EvMakedirs p])
  | Raise e => (Raise e, fs, [EvMakedirs p])
  end.
Proof.
  unfold os_makedirs, bind, emit, fs_update.
  destruct (fs_makedirs p fs); reflexivity.
Qed.

Lemma run_dir_failure (out : stdout) (net : server) (fs : dir) (e : exn) :
  fs_makedirs models_dir fs = Raise e ->
  run out net fs = (Raise e, fs, [EvMakedirs models_dir]).
Proof.
  intros H. unfold run, script, bind. now rewrite os_makedirs_run, H.
Qed.

Lemma run_dir_ok (out : stdout) (net : server) (fs fs1 : dir) :
  fs_makedirs models_dir fs = Ret fs1 ->
  run out net fs =
  match download_body out net fs1 with
  | (Ret _, fs2, t) => (Ret tt, fs2, EvMakedirs models_dir :: banner_events ++ t)
  | (Raise e, fs2, t) =>
      match write_error out (error_text e) with
      | None =>
          (Ret tt, fs2, EvMakedirs models_dir :: banner_events ++ t ++ failure_events e)
      | Some x => (Raise x, fs2, EvMakedirs models_dir :: banner_events ++ t)
      end
  end.
Proof.
  intros H. unfold run, script, bind. rewrite os_makedirs_run, H, banner_run.
  unfold try_except.
  destruct (download_body out net fs1) as [[[[]|e] fs2] t].
  - reflexivity.
  - rewrite report_failure_run.
    destruct (write_error out (error_text e)); [|reflexivity].
    now rewrite app_nil_r.
Qed.

(** *** The callback only prints *)

(** A progress line is ASCII text, so the encoding does not matter. *)
Lemma download_progress_run (out : stdout) (a b c : Z) (fs : dir) :
  download_progress out a b c fs =
  match rbind (progress_values a b c) progress_line with
  | Ret line => (Ret tt, fs, [EvPrint (line ++ "")])
  | Raise e => (Raise e, fs, [])
  end.
Proof.
  unfold download_progress, bind, lift.
  destruct (progress_values a b c) as [v|e]; [|reflexivity].
  cbn [rbind]. destruct (progress_line v) as [line|e] eqn:L; [|reflexivity].
  now rewrite (print_end_ascii out line "" fs (progress_line_ascii v line L) eq_refl).
Qed.

Lemma download_progress_prints_only (out : stdout) :
  prints_only (download_progress out).
Proof.
  intros a b c fs. rewrite download_progress_run.
  destruct (rbind _ _); eauto.
Qed.

(** *** The transfer loop *)

Section Loop.

Variable filename : string.
Variable hook : Z -> Z -> Z -> M unit.
Variables bs size : Z.
Hypothesis hook_quiet : prints_only hook.

Lemma retrieve_loop_run (pending : list bytes) (err : option exn) :
  forall read bn fs d,
    fs_lookup filename fs = Some (File d) ->
    exists r fs' t d',
      retrieve_loop filename hook bs size pending err read bn fs = (r, fs', t)
      /\ forallb is_print t = true
      /\ fs_lookup filename fs' = Some (File d')
      /\ (forall n, r = Ret n -> d' = (d ++ payload pending)%list).
Proof.
  induction pending as [|block rest IH]; intros read bn fs d Hd.
  - simpl. destruct err as [e|]; unfold raise, ret.
    + exists (Raise e), fs, [], d. repeat apply conj; auto. intros n [=].
    + exists (Ret read), fs, [], d. repeat apply conj; auto.
      intros n _. now rewrite app_nil_r.
  - destruct block as [|b bl].
    + simpl. unfold ret. exists (Ret read), fs, [], d. repeat apply conj; auto.
      intros n _. now rewrite app_nil_r.
    + cbn [retrieve_loop payload]. unfold bind at 1, fs_update at 1.
      destruct (fs_append_ok filename (b :: bl) d fs Hd) as [fs1 H1].
      rewrite H1.
      pose proof (fs_append_lookup _ _ _ _ _ Hd H1) as Hd1.
      unfold bind at 1.
      destruct (hook_quiet (bn + 1) bs size fs1) as [r1 [t1 [E1 P1]]].
      rewrite E1. destruct r1 as [[]|e].
      * destruct (IH (read + Z.of_nat (List.length (b :: bl))) (bn + 1) fs1 _ Hd1)
          as [r [fs' [t [d' [E [P [L F]]]]]]].
        rewrite E. exists r, fs', (t1 ++ t)%list, d'. repeat apply conj; auto.
        -- now rewrite forallb_app, P1, P.
        -- intros n Hn. rewrite (F n Hn). now rewrite <- app_assoc.
      * exists (Raise e), fs1, t1, (d ++ b :: bl)%list. repeat apply conj; auto.
        intros n [=].
Qed.

End Loop.

Lemma urlretrieve_run (net : server) (url filename : string)
      (hook : Z -> Z -> Z -> M unit) (fs : dir) :
  prints_only hook ->
  exists r fs' t,
    urlretrieve net url filename hook fs = (r, fs', EvUrlretrieve url filename :: t)
    /\ forallb is_print t = true
    /\ (r = Ret tt -> exists resp,
          net = Responds resp /\
          fs_lookup filename fs' = Some (File (payload (reads resp)))).
Proof.
  intros Hq. unfold urlretrieve, bind at 1, emit.
  destruct net as [e|resp]; unfold urlopen.
  - unfold bind, raise. exists (Raise e), fs, []. repeat apply conj; auto. intros [=].
  - unfold bind at 1, ret. unfold bind at 1, fs_update.
    destruct (fs_put filename [] fs) as [fs1|e] eqn:P.
    2:{ exists (Raise e), fs, []. repeat apply conj; auto. intros [=]. }
    pose proof (put_in_lookup _ _ _ _ _ P) as L1. fold (fs_lookup filename fs1) in L1.
    unfold bind at 1.
    set (size := match content_length resp with Some n => n | None => -1 end).
    destruct (Hq 0 (1024 * 8) size fs1) as [r0 [t0 [E0 P0]]]. rewrite E0.
    destruct r0 as [[]|e].
    2:{ exists (Raise e), fs1, t0. repeat apply conj; auto. intros [=]. }
    unfold bind at 1.
    destruct (retrieve_loop_run filename hook (1024 * 8) size Hq
                (reads resp) (read_error resp) 0 0 fs1 [] L1)
      as [r [fs' [t [d' [E [Pt [L F]]]]]]].
    rewrite E. destruct r as [n|e].
    2:{ exists (Raise e), fs', (t0 ++ t)%list. repeat apply conj; auto.
        - now rewrite forallb_app, P0, Pt.
        - intros [=]. }
    rewrite (F n eq_refl) in L. simpl in L.
    destruct ((size >=? 0) && (n <? size))%bool; unfold raise, ret.
    + exists (Raise (content_too_short n size)), fs', (t0 ++ t ++ [])%list.
      repeat apply conj; auto.
      * now rewrite !forallb_app, P0, Pt.
      * intros [=].
    + exists (Ret tt), fs', (t0 ++ t ++ [])%list.
      repeat apply conj; auto.
      * now rewrite !forallb_app, P0, Pt.
      * intros _. eauto.
Qed.

(** *** The body of the [try] statement *)

Lemma download_body_run (out : stdout) (net : server) (fs : dir) :
  exists r fs' progress rest,
    download_body out net fs =
      (r, fs', EvUrlretrieve model_url model_path :: progress ++ rest)
    /\ forallb is_print progress = true
    /\ match r with
       | Ret _ =>
           exists resp file_size,
             net = Responds resp /\
             fs_lookup model_path fs' = Some (File (payload (reads resp))) /\
             int_truediv (Z.of_nat (List.length (payload (reads resp)))) (1024 * 1024)
               = Ret file_size /\
             rest = EvGetsize model_path :: success_events file_size
       | Raise e => rest = [] \/ rest = [EvGetsize model_path]
       end.
Proof.
  unfold download_body, bind at 1.
  destruct (urlretrieve_run net model_url model_path (download_progress out) fs
              (download_progress_prints_only out)) as [r [fs' [t [E [P S]]]]].
  rewrite E. destruct r as [[]|e].
  2:{ exists (Raise e), fs', t, []. rewrite app_nil_r. auto. }
  destruct (S eq_refl) as [resp [-> L]].
  unfold bind at 1, os_path_getsize, bind at 1, emit, fs_read, fs_getsize.
  rewrite L. unfold bind at 1, lift.
  destruct (int_truediv _ _) as [file_size|e] eqn:D.
  2:{ exists (Raise e), fs', t, [EvGetsize model_path]. repeat apply conj; auto. }
  unfold bind at 1. rewrite print_run.
  change (LF ++ LF ++ "✓ Model downloaded successfully!")%string with success_text.
  destruct (write_error out success_text) as [x|].
  { exists (Raise x), fs', t, [EvGetsize model_path]. repeat apply conj; auto. }
  unfold bind at 1. rewrite print_ascii.
  2:{ now rewrite !is_ascii_app, format_float_ascii. }
  exists (Ret tt), fs', t, (EvGetsize model_path :: success_events file_size).
  repeat apply conj; auto.
  - unfold success_events, success_text. rewrite <- !append_assoc. reflexivity.
  - exists resp, file_size. auto.
Qed.

End ScriptFacts.

(** ** Error handling (C1, C2) *)

Module ErrorHandling.

Import PyNum Env Script Report EnvFacts TextFacts ScriptFacts Samples.










(** A run that succeeds has exit status 0. *)
Lemma success_exit_status (out : stdout) (net : server) (fs : dir) :
  succeeds out net fs -> exit_status (outcome_of (run out net fs)) = 0.
Proof.
  intros (fs1 & fs2 & t & Hd & Hb). now rewrite (run_dir_ok out net fs fs1 Hd), Hb.
Qed.

End ErrorHandling.

(** ** Directory creation (C5) *)

Module Directory.

Import PyNum Env Script Report EnvFacts TextFacts ScriptFacts Samples.

(** C5: [os.makedirs(models_dir, exist_ok=True)] is idempotent.  When the
    directory is there already the call raises nothing and leaves the file
    system as it is; and the state a first successful call leaves, from
    absence or not, has the directory in place and is the state a second
    call leaves. *)
Theorem makedirs_idempotent (fs : dir) :
  (is_dir models_dir fs = true ->
   os_makedirs models_dir fs = (Ret tt, fs, [EvMakedirs models_dir]))
  /\
  (forall fs1,
     os_makedirs models_dir fs = (Ret tt, fs1, [EvMakedirs models_dir]) ->
     is_dir models_dir fs1 = true /\
     os_makedirs models_dir fs1 = (Ret tt, fs1, [EvMakedirs models_dir])).
Proof.
  split.
  - unfold is_dir, fs_lookup. intros H. rewrite os_makedirs_run. unfold fs_makedirs.
    destruct (lookup_in (components models_dir) fs) as [[d|sub]|] eqn:L;
      try discriminate.
    now rewrite (makedirs_in_present _ _ _ _ L).
  - intros fs1. rewrite !os_makedirs_run. unfold fs_makedirs, is_dir, fs_lookup.
    destruct (makedirs_in models_dir (components models_dir) fs) as [fs'|e] eqn:E;
      [|discriminate].
    intros [= <-].
    destruct (makedirs_in_creates _ _ _ _ E) as [d Hd].
    rewrite Hd, (makedirs_in_idem _ _ _ _ E). auto.
Qed.

Lemma makedirs_idempotent_witness :
  os_makedirs models_dir fs_downloaded
    = (Ret tt, fs_downloaded, [EvMakedirs models_dir])
  /\
  (is_dir models_dir [("assets", Dir [("models", Dir [])])] = true /\
   os_makedirs models_dir [("assets", Dir [("models", Dir [])])]
     = (Ret tt, [("assets", Dir [("models", Dir [])])], [EvMakedirs models_dir])).
Proof.
  split.
  - apply (proj1 (makedirs_idempotent fs_downloaded)). reflexivity.
  - apply (proj2 (makedirs_idempotent fs_empty)). reflexivity.
Defined.

End Directory.

(** ** Overwriting the destination (C6) *)

Module Overwrite.

Import PyNum Env Script Report EnvFacts TextFacts ScriptFacts Samples.

(** C6: when a file is already at the destination path and the run
    succeeds, the file holds the downloaded bytes afterwards, whatever it
    held before.  Between the banner and the call of [urlretrieve] nothing
    happens: the script has no prompt and reads nothing from the console. *)
Theorem successful_run_overwrites
        (out : stdout) (net : server) (fs : dir) (old : bytes) :
  fs_lookup model_path fs = Some (File old) ->
  succeeds out net fs ->
  exists resp progress file_size,
    net = Responds resp /\
    fs_lookup model_path (final_fs (run out net fs))
      = Some (File (payload (reads resp))) /\
    forallb is_print progress = true /\
    trace_of (run out net fs) =
      (EvMakedirs models_dir :: banner_events
         ++ EvUrlretrieve model_url model_path :: progress
         ++ EvGetsize model_path :: success_events file_size)%list.
Proof.
  intros _ (fs1 & fs2 & t & Hd & Hb).
  rewrite (run_dir_ok out net fs fs1 Hd).
  destruct (download_body_run out net fs1) as (r & fs' & progress & rest & E & P & S).
  rewrite E in Hb |- *. injection Hb as -> -> Ht.
  destruct S as (resp & file_size & -> & L & _ & ->).
  exists resp, progress, file_size. auto.
Qed.

Lemma successful_run_overwrites_witness :
  exists resp progress file_size,
    net_small = Responds resp /\
    fs_lookup model_path (final_fs (run utf8_stdout net_small fs_downloaded))
      = Some (File (payload (reads resp))) /\
    forallb is_print progress = true /\
    trace_of (run utf8_stdout net_small fs_downloaded) =
      (EvMakedirs models_dir :: banner_events
         ++ EvUrlretrieve model_url model_path :: progress
         ++ EvGetsize model_path :: success_events file_size)%list.
Proof.
  apply (successful_run_overwrites utf8_stdout net_small fs_downloaded (block_of 7)).
  - reflexivity.
  - exists fs_downloaded. eexists. eexists. split; [reflexivity|].
    vm_compute. reflexivity.
Defined.

(** On the sample: seven old bytes are replaced by the five new ones. *)
Example overwrite_sample :
  fs_lookup model_path fs_downloaded = Some (File (block_of 7)) /\
  fs_lookup model_path (final_fs (run utf8_stdout net_small fs_downloaded))
    = Some (File (block_of 5)).
Proof. split; vm_compute; reflexivity. Qed.

End Overwrite.

(** ** Order of the steps (C7) *)

Module Ordering.

Import PyNum Env Script Report EnvFacts TextFacts ScriptFacts Samples.

Lemma prints_are_not_fetches (t : list event) :
  forallb is_print t = true -> filter is_fetch t = [].
Proof.
  induction t as [|ev rest IH]; [reflexivity|].
  simpl. destruct ev; simpl; try discriminate. exact IH.
Qed.

(** C7, as the claim states it, fails: when directory creation raises,
    the invocation ends there and performs no fetch at all. *)
Lemma no_fetch_without_directory :
  trace_of (run utf8_stdout net_small fs_blocked) = [EvMakedirs models_dir]
  /\ fetches (trace_of (run utf8_stdout net_small fs_blocked)) = 0%nat.
Proof. split; vm_compute; reflexivity. Qed.

(** C7, amended: every invocation begins with the directory-creation step
    and performs at most one fetch.  When that step succeeds there is
    exactly one fetch, and the trace is: directory creation, the banner,
    the call of [urlretrieve], the progress lines of its callback, then the
    report of the outcome.  When it raises, nothing else happens. *)
Theorem steps_in_order (out : stdout) (net : server) (fs : dir) :
  (fetches (trace_of (run out net fs)) <= 1)%nat
  /\ (exists rest, trace_of (run out net fs) = EvMakedirs models_dir :: rest)
  /\ (forall fs1,
        fs_makedirs models_dir fs = Ret fs1 ->
        fetches (trace_of (run out net fs)) = 1%nat /\
        exists progress outcome,
          trace_of (run out net fs) =
            (EvMakedirs models_dir :: banner_events
               ++ EvUrlretrieve model_url model_path :: progress ++ outcome)%list
          /\ forallb is_print progress = true
          /\ outcome_report out outcome)
  /\ (forall e,
        fs_makedirs models_dir fs = Raise e ->
        trace_of (run out net fs) = [EvMakedirs models_dir]).
Proof.
  assert (Hok : forall fs1,
        fs_makedirs models_dir fs = Ret fs1 ->
        fetches (trace_of (run out net fs)) = 1%nat /\
        exists progress outcome,
          trace_of (run out net fs) =
            (EvMakedirs models_dir :: banner_events
               ++ EvUrlretrieve model_url model_path :: progress ++ outcome)%list
          /\ forallb is_print progress = true
          /\ outcome_report out outcome).
  { intros fs1 Hd. rewrite (run_dir_ok out net fs fs1 Hd).
    destruct (download_body_run out net fs1) as (r & fs' & progress & rest & E & P & S).
    rewrite E.
    assert (Hf : forall outcome,
               filter is_fetch outcome = [] ->
               fetches (EvMakedirs models_dir :: banner_events
                          ++ EvUrlretrieve model_url model_path :: progress ++ outcome)
                 = 1%nat).
    { intros outcome Ho. unfold fetches.
      change (EvMakedirs models_dir :: banner_events
                ++ EvUrlretrieve model_url model_path :: progress ++ outcome)%list
        with ((EvMakedirs models_dir :: banner_events)
                ++ [EvUrlretrieve model_url model_path] ++ progress ++ outcome)%list.
      rewrite !filter_app, (prints_are_not_fetches _ P), Ho. reflexivity. }
    destruct r as [[]|e]; unfold trace_of, snd.
    - destruct S as (resp & file_size & _ & _ & _ & ->).
      split; [apply Hf; reflexivity|].
      exists progress, (EvGetsize model_path :: success_events file_size).
      repeat apply conj; auto. left. eauto.
    - destruct (write_error out (error_text e)) as [x|] eqn:W; cbn [snd].
      + destruct S as [-> | ->].
        * split; [apply Hf; reflexivity|].
          exists progress, []. repeat apply conj; auto.
          right. right. right. eauto.
        * split; [apply Hf; reflexivity|].
          exists progress, [EvGetsize model_path]. repeat apply conj; auto.
          right. right. right. eauto.
      + rewrite <- app_comm_cons, <- app_assoc.
        destruct S as [-> | ->].
        * split; [apply Hf; reflexivity|].
          exists progress, (failure_events e). repeat apply conj; auto.
          right. left. eauto.
        * split; [apply Hf; reflexivity|].
          exists progress, (EvGetsize model_path :: failure_events e).
          repeat apply conj; auto. right. right. left. eauto. }
  assert (Hbad : forall e,
        fs_makedirs models_dir fs = Raise e ->
        trace_of (run out net fs) = [EvMakedirs models_dir]).
  { intros e Hd. now rewrite (run_dir_failure out net fs e Hd). }
  destruct (fs_makedirs models_dir fs) as [fs1|e] eqn:Hd.
  - destruct (Hok fs1 eq_refl) as [H1 (progress & outcome & Ht & _)].
    repeat apply conj; auto.
    + rewrite H1. lia.
    + rewrite Ht. eauto.
  - rewrite (Hbad e eq_refl). repeat apply conj; auto.
    + eauto.
    + intros fs1 [=].
Qed.

Lemma steps_in_order_witness :
  (fetches (trace_of (run utf8_stdout net_small fs_empty)) = 1%nat /\
   exists progress outcome,
     trace_of (run utf8_stdout net_small fs_empty) =
       (EvMakedirs models_dir :: banner_events
          ++ EvUrlretrieve model_url model_path :: progress ++ outcome)%list
     /\ forallb is_print progress = true
     /\ outcome_report utf8_stdout outcome)
  /\ trace_of (run utf8_stdout net_small fs_blocked) = [EvMakedirs models_dir].
Proof.
  split.
  - apply (proj1 (proj2 (proj2 (steps_in_order utf8_stdout net_small fs_empty)))
             [("assets", Dir [("models", Dir [])])]).
    reflexivity.
  - apply (proj2 (proj2 (proj2 (steps_in_order utf8_stdout net_small fs_blocked)))
             (os_error NotADirectoryError "20" "Not a directory" models_dir)).
    reflexivity.
Defined.

End Ordering.

(** ** The progress callback (C3, C4, C8) *)

Module Progress.

Import PyNum Env Script Report ProgressSpec EnvFacts ScriptFacts Samples.

Lemma percent_of_claimed (bn bs ts : Z) :
  percent_of (bn * bs) ts = claimed_percent bn bs ts.
Proof.
  unfold percent_of, claimed_percent.
  rewrite Z.gtb_ltb. reflexivity.
Qed.

Lemma progress_line_claimed (bn bs ts : Z) :
  rbind (progress_values bn bs ts) progress_line = claimed_line bn bs ts.
Proof.
  unfold progress_values, claimed_line, claimed_mb_downloaded, claimed_mb_total.
  rewrite percent_of_claimed.
  destruct (claimed_percent bn bs ts) as [p|e]; simpl; [|reflexivity].
  destruct (int_truediv (bn * bs) (1024 * 1024)) as [d|e] eqn:D;
    change (1024 * 1024) with 1048576 in D; rewrite D; simpl; [|reflexivity].
  destruct (int_truediv ts (1024 * 1024)) as [t|e] eqn:T;
    change (1024 * 1024) with 1048576 in T; rewrite T; simpl; [|reflexivity].
  unfold progress_line. simpl.
  destruct (format_f 1 p); reflexivity.
Qed.

(** C3: the callback reports the percentage
    [(block_num * block_size / total_size) * 100] when [total_size > 0] and
    [0] otherwise, and the two megabyte counts, the downloaded byte count
    and [total_size] each divided by 1048576: its local variables hold
    these values and the line it prints is made of them. *)
Theorem progress_report (out : stdout) (bn bs ts : Z) (fs : dir) :
  download_progress out bn bs ts fs =
    match claimed_line bn bs ts with
    | Ret line => (Ret tt, fs, [EvPrint line])
    | Raise e => (Raise e, fs, [])
    end
  /\ (ts <= 0 ->
      claimed_percent bn bs ts = Ret (PyInt 0) /\ format_f 1 (PyInt 0) = Ret "0.0"%string)
  /\ (forall v,
        progress_values bn bs ts = Ret v ->
        claimed_percent bn bs ts = Ret (percent v) /\
        claimed_mb_downloaded bn bs = Ret (mb_downloaded v) /\
        claimed_mb_total ts = Ret (mb_total v)).
Proof.
  repeat apply conj.
  - rewrite download_progress_run, progress_line_claimed.
    destruct (claimed_line bn bs ts); [|reflexivity].
    now rewrite append_nil_r.
  - intros H. unfold claimed_percent.
    destruct (0 <? ts) eqn:E; [apply Z.ltb_lt in E; lia|]. split; reflexivity.
  - intros v. unfold progress_values, claimed_mb_downloaded, claimed_mb_total.
    rewrite percent_of_claimed.
    destruct (claimed_percent bn bs ts) as [p|e]; simpl; [|discriminate].
    change (1024 * 1024) with 1048576.
    destruct (int_truediv (bn * bs) 1048576) as [d|e]; simpl; [|discriminate].
    destruct (int_truediv ts 1048576) as [t|e]; simpl; [|discriminate].
    intros [= <-]. auto.
Qed.

Lemma progress_report_witness :
  (claimed_percent 3 8192 (-1) = Ret (PyInt 0) /\ format_f 1 (PyInt 0) = Ret "0.0"%string)
  /\ (claimed_percent 2 8192 10000
        = Ret (PyFloat (S754_finite false 5764607523034235 (-45)))
      /\ claimed_mb_downloaded 2 8192 = Ret (S754_finite false 4503599627370496 (-58))
      /\ claimed_mb_total 10000 = Ret (S754_finite false 5497558138880000 (-59))).
Proof.
  split.
  - apply (proj1 (proj2 (progress_report utf8_stdout 3 8192 (-1) fs_empty))). lia.
  - apply (proj2 (proj2 (progress_report utf8_stdout 2 8192 10000 fs_empty))
             (mk_progress (PyFloat (S754_finite false 5764607523034235 (-45)))
                          (S754_finite false 4503599627370496 (-58))
                          (S754_finite false 5497558138880000 (-59)))).
    vm_compute. reflexivity.
Defined.

(** *** Completion *)

(** A positive integer divided by itself is the float [1.0], whatever its
    size. *)
Lemma int_truediv_self (p : positive) : int_truediv (Zpos p) (Zpos p) = Ret one.
Proof.
  unfold int_truediv. simpl (Zpos p =? 0). cbv iota.
  unfold exact_of_int, SFdiv, SFdiv_core_binary.
  rewrite !Z.add_0_r, !Z.sub_diag.
  change (Z.min (fexp prec emax 0) 0) with (-53).
  change (0 - -53) with 53.
  destruct (Z.div_eucl (Z.shiftl (Zpos p) 53) (Zpos p)) as [q r] eqn:E.
  assert (Hq : q = 2 ^ 53).
  { change q with (fst (q, r)). rewrite <- E.
    change (fst (Z.div_eucl (Z.shiftl (Zpos p) 53) (Zpos p)))
      with (Z.shiftl (Zpos p) 53 / Zpos p).
    rewrite Z.shiftl_mul_pow2 by lia. rewrite Z.mul_comm. now apply Z.div_mul. }
  assert (Hr : r = 0).
  { change r with (snd (q, r)). rewrite <- E.
    change (snd (Z.div_eucl (Z.shiftl (Zpos p) 53) (Zpos p)))
      with (Z.shiftl (Zpos p) 53 mod Zpos p).
    rewrite Z.shiftl_mul_pow2 by lia. rewrite Z.mul_comm. now apply Z.mod_mul. }
  subst q r.
  assert (Hl : new_location (Zpos p) 0 = loc_Exact).
  { unfold new_location. destruct (Z.even (Zpos p)); reflexivity. }
  rewrite Hl. vm_compute. reflexivity.
Qed.

(** C4: for [total_size > 0], when the bytes downloaded so far equal
    [total_size], the percentage is exactly [100.0], printed as 100.0. *)
Theorem percent_at_completion (bn bs ts : Z) :
  0 < ts -> bn * bs = ts ->
  percent_of (bn * bs) ts = Ret (PyFloat hundred)
  /\ (forall v, progress_values bn bs ts = Ret v -> percent v = PyFloat hundred)
  /\ format_f 1 (PyFloat hundred) = Ret "100.0"%string.
Proof.
  intros Hts Heq.
  assert (Hp : percent_of (bn * bs) ts = Ret (PyFloat hundred)).
  { rewrite Heq. unfold percent_of.
    destruct ts as [|p|p]; try lia.
    simpl (Zpos p >? 0). cbv iota. rewrite int_truediv_self. reflexivity. }
  repeat apply conj; [exact Hp| |reflexivity].
  intros v. unfold progress_values. rewrite Hp. cbn [rbind].
  destruct (int_truediv (bn * bs) (1024 * 1024)); cbn [rbind]; [|discriminate].
  destruct (int_truediv ts (1024 * 1024)); cbn [rbind]; [|discriminate].
  now intros [= <-].
Qed.

Lemma percent_at_completion_witness :
  percent_of (11 * 8192) 90112 = Ret (PyFloat hundred)
  /\ (forall v, progress_values 11 8192 90112 = Ret v -> percent v = PyFloat hundred)
  /\ format_f 1 (PyFloat hundred) = Ret "100.0"%string.
Proof. apply (percent_at_completion 11 8192 90112); reflexivity. Defined.

(** *** Beyond 100 *)

(** C8: there are callback inputs with [total_size > 0] and
    [block_num * block_size > total_size] for which the percentage is
    above [100.0]; it is printed as it is, nothing clamps it.  The inputs
    are those of the last call when 10000 bytes arrive in blocks of 8192. *)
Theorem percent_exceeds_100 :
  exists bn bs ts p,
    0 < ts /\ ts < bn * bs
    /\ percent_of (bn * bs) ts = Ret (PyFloat p)
    /\ float_ltb hundred p = true
    /\ (forall out fs,
          download_progress out bn bs ts fs
          = (Ret tt, fs, [EvPrint (CR ++ "Progress: 163.8% (0.0/0.0 MB)")%string]))
    /\ In (EvPrint (CR ++ "Progress: 163.8% (0.0/0.0 MB)")%string)
          (trace_of (run utf8_stdout net_two_blocks fs_empty)).
Proof.
  exists 2, 8192, 10000, (S754_finite false 5764607523034235 (-45)).
  split; [lia|]. split; [lia|]. split; [reflexivity|]. split; [reflexivity|].
  split.
  - intros out fs. rewrite download_progress_run. reflexivity.
  - vm_compute. tauto.
Qed.

End Progress.

(** ** Monotonicity and totality of the callback (C9, C10) *)

Module ProgressOrder.

Import PyNum Env Script Report ProgressSpec Rounding.
Import EnvFacts ScriptFacts RoundingFacts NumberFacts Samples.

Lemma percent_of_float (d ts : Z) (p : pyval) :
  0 < ts -> percent_of d ts = Ret p ->
  exists q, int_truediv d ts = Ret q /\ p = PyFloat (SFmul prec emax q hundred).
Proof.
  intros Hts. unfold percent_of.
  destruct (Z.gtb_spec ts 0) as [_|]; [|lia].
  destruct (int_truediv d ts) as [q|e]; cbn [rbind]; [|discriminate].
  rewrite float_mul_int_100. cbn [rbind]. intros [= <-]. eauto.
Qed.

(** C9: for a fixed [block_size >= 0] and a fixed [total_size], the
    percentage is nondecreasing in [block_num], wherever the callback
    computes it. *)
Theorem percent_monotone (bs ts bn1 bn2 : Z) (p1 p2 : pyval) :
  0 <= bs -> bn1 <= bn2 ->
  percent_of (bn1 * bs) ts = Ret p1 ->
  percent_of (bn2 * bs) ts = Ret p2 ->
  py_leb p1 p2 = Some true.
Proof.
  intros Hbs Hbn H1 H2.
  destruct (Z.lt_ge_cases 0 ts) as [Hts|Hts].
  - destruct (percent_of_float _ _ _ Hts H1) as (q1 & D1 & ->).
    destruct (percent_of_float _ _ _ Hts H2) as (q2 & D2 & ->).
    unfold py_leb, float_leb. f_equal.
    apply (percent_floats_in_order (bn1 * bs) (bn2 * bs) ts); try assumption.
    now apply Z.mul_le_mono_nonneg_r.
  - unfold percent_of in H1, H2.
    destruct (Z.gtb_spec ts 0) as [|_]; [lia|].
    injection H1 as <-. injection H2 as <-. reflexivity.
Qed.

Lemma percent_monotone_witness :
  py_leb (PyFloat (S754_finite false 5764607523034235 (-46)))
         (PyFloat (S754_finite false 5764607523034235 (-45))) = Some true.
Proof.
  apply (percent_monotone 8192 10000 1 2); try lia; vm_compute; reflexivity.
Defined.

(** C10, as the claim states it, fails: the callback is not total over
    all integers.  With [block_num = 2^1100] the quotient by
    [total_size = 1] is beyond the largest float, and the division raises
    [OverflowError]. *)
Lemma progress_overflow :
  download_progress utf8_stdout (2 ^ 1100) 1 1 fs_empty
  = (Raise (mk_exn OverflowError "integer division result too large for a float"),
     fs_empty, []).
Proof. vm_compute. reflexivity. Qed.

Lemma progress_values_raises (bn bs ts : Z) (e : exn) :
  progress_values bn bs ts = Raise e -> exn_cls e = OverflowError.
Proof.
  unfold progress_values, percent_of.
  destruct (Z.gtb_spec ts 0) as [Hts|Hts].
  - destruct (int_truediv (bn * bs) ts) as [q|e0] eqn:D; cbn [rbind].
    + rewrite float_mul_int_100. cbn [rbind].
      destruct (int_truediv (bn * bs) (1024 * 1024)) as [d|e1] eqn:D1; cbn [rbind].
      * destruct (int_truediv ts (1024 * 1024)) as [t|e2] eqn:D2; cbn [rbind];
          [discriminate|].
        intros [= <-]. now apply (int_truediv_raises ts (1024 * 1024)).
      * intros [= <-]. now apply (int_truediv_raises (bn * bs) (1024 * 1024)).
    + intros [= <-]. apply (int_truediv_raises (bn * bs) ts); [lia|assumption].
  - cbn [rbind].
    destruct (int_truediv (bn * bs) (1024 * 1024)) as [d|e1] eqn:D1; cbn [rbind].
    + destruct (int_truediv ts (1024 * 1024)) as [t|e2] eqn:D2; cbn [rbind];
        [discriminate|].
      intros [= <-]. now apply (int_truediv_raises ts (1024 * 1024)).
    + intros [= <-]. now apply (int_truediv_raises (bn * bs) (1024 * 1024)).
Qed.

Lemma progress_line_returns (bn bs ts : Z) (v : progress) :
  progress_values bn bs ts = Ret v -> exists line, progress_line v = Ret line.
Proof.
  unfold progress_values, percent_of, progress_line.
  destruct (ts >? 0).
  - destruct (int_truediv (bn * bs) ts) as [q|e0]; cbn [rbind]; [|discriminate].
    rewrite float_mul_int_100. cbn [rbind].
    destruct (int_truediv (bn * bs) (1024 * 1024)); cbn [rbind]; [|discriminate].
    destruct (int_truediv ts (1024 * 1024)); cbn [rbind]; [|discriminate].
    intros [= <-]. cbn. eauto.
  - cbn [rbind].
    destruct (int_truediv (bn * bs) (1024 * 1024)); cbn [rbind]; [|discriminate].
    destruct (int_truediv ts (1024 * 1024)); cbn [rbind]; [|discriminate].
    intros [= <-]. cbn. eauto.
Qed.

Lemma progress_values_returns (bn bs ts : Z) :
  Z.abs (bn * bs) < 2 ^ 1023 -> Z.abs ts < 2 ^ 1023 ->
  exists v, progress_values bn bs ts = Ret v.
Proof.
  intros Hd Ht. unfold progress_values, percent_of.
  destruct (int_truediv_returns (bn * bs) (1024 * 1024) ltac:(lia) Hd) as [d ->].
  destruct (int_truediv_returns ts (1024 * 1024) ltac:(lia) Ht) as [t ->].
  destruct (Z.gtb_spec ts 0) as [Hts|Hts].
  - destruct (int_truediv_returns (bn * bs) ts Hts Hd) as [q ->].
    cbn [rbind]. rewrite float_mul_int_100. cbn [rbind]. eauto.
  - cbn [rbind]. eauto.
Qed.

(** C10, amended: the callback never divides by zero: the division by
    [total_size] is made only under the guard [total_size > 0] and the
    other divisor is the constant 1048576, so for all integers, among them
    [total_size = 0] and negative ones, the only exception it can raise is
    the [OverflowError] of a quotient beyond the range of floats.  It
    returns, having printed one line, whenever [block_num * block_size] and
    [total_size] are below [2^1023] in absolute value. *)
Theorem progress_never_divides_by_zero (out : stdout) (bn bs ts : Z) (fs : dir) :
  (forall e fs' t,
     download_progress out bn bs ts fs = (Raise e, fs', t) ->
     exn_cls e = OverflowError /\ exn_cls e <> ZeroDivisionError)
  /\
  (Z.abs (bn * bs) < 2 ^ 1023 -> Z.abs ts < 2 ^ 1023 ->
   exists line, download_progress out bn bs ts fs = (Ret tt, fs, [EvPrint line])).
Proof.
  split.
  - intros e fs' t. rewrite download_progress_run.
    destruct (progress_values bn bs ts) as [v|e0] eqn:V; cbn [rbind].
    + destruct (progress_line_returns _ _ _ _ V) as [line ->]. discriminate.
    + intros [= <- _ _]. rewrite (progress_values_raises _ _ _ _ V).
      split; [reflexivity|discriminate].
  - intros Hd Ht. rewrite download_progress_run.
    destruct (progress_values_returns bn bs ts Hd Ht) as [v V]. rewrite V.
    cbn [rbind]. destruct (progress_line_returns _ _ _ _ V) as [line ->].
    rewrite append_nil_r. eauto.
Qed.

Lemma progress_never_divides_by_zero_witness :
  (exn_cls (mk_exn OverflowError "integer division result too large for a float")
     = OverflowError /\
   exn_cls (mk_exn OverflowError "integer division result too large for a float")
     <> ZeroDivisionError)
  /\
  (exists line,
     download_progress utf8_stdout 5 8192 0 fs_empty = (Ret tt, fs_empty, [EvPrint line])).
Proof.
  split.
  - apply (proj1 (progress_never_divides_by_zero utf8_stdout (2 ^ 1100) 1 1 fs_empty)
             _ fs_empty []).
    vm_compute. reflexivity.
  - apply (proj2 (progress_never_divides_by_zero utf8_stdout 5 8192 0 fs_empty));
      vm_compute; reflexivity.
Defined.

End ProgressOrder.

(** ** Effects of a run on the file system *)

Module EffectFacts.

Import PyNum Env Script Report Samples Effects EnvFacts TextFacts ScriptFacts.

Lemma assoc_set_other (k c : string) (n : node) (es : dir) :
  k <> c -> assoc k (assoc_set c n es) = assoc k es.
Proof.
  intros Hk. induction es as [|[x v] rest IH]; simpl.
  - destruct (String.eqb_spec c k); congruence.
  - destruct (String.eqb_spec x c) as [->|Hx]; simpl.
    + destruct (String.eqb_spec c k); congruence.
    + destruct (String.eqb_spec x k); [reflexivity|exact IH].
Qed.

Lemma lookup_in_empty (q : list string) :
  q <> [] -> lookup_in q [] = None.
Proof. destruct q; [congruence|reflexivity]. Qed.

Lemma is_prefix_nil (q : list string) : is_prefix q [] = false -> q <> [].
Proof. destruct q; [discriminate|congruence]. Qed.

(** Creating directories changes nothing but the directories on the way. *)
Lemma makedirs_in_frame (p : string) (comps : list string) :
  forall q es es',
    makedirs_in p comps es = Ret es' ->
    is_prefix q comps = false ->
    lookup_in q es' = lookup_in q es.
Proof.
  induction comps as [|c rest IH]; intros q es es' H Hq.
  - simpl in H. now inversion H.
  - destruct q as [|x q']; [discriminate|]. simpl in Hq.
    simpl in H. rewrite !lookup_in_step.
    destruct (String.eqb_spec x c) as [->|Hx].
    + simpl in Hq.
      destruct (assoc c es) as [[data|sub]|] eqn:A.
      * destruct rest; discriminate.
      * destruct (makedirs_in p rest sub) as [sub'|e] eqn:R; simpl in H; [|discriminate].
        inversion H; subst es'. rewrite assoc_set_same. exact (IH _ _ _ R Hq).
      * destruct (makedirs_in p rest []) as [sub'|e] eqn:R; simpl in H; [|discriminate].
        inversion H; subst es'. rewrite assoc_set_same, (IH _ _ _ R Hq).
        apply lookup_in_empty. intros ->. now destruct rest.
    + assert (E : assoc x es' = assoc x es).
      { destruct (assoc c es) as [[data|sub]|].
        - destruct rest; discriminate.
        - destruct (makedirs_in p rest sub); simpl in H; [|discriminate].
          inversion H. now apply assoc_set_other.
        - destruct (makedirs_in p rest []); simpl in H; [|discriminate].
          inversion H. now apply assoc_set_other. }
      now rewrite E.
Qed.

Lemma put_in_single (p c : string) (d : bytes) (es es' : dir) :
  put_in p [c] d es = Ret es' ->
  es' = assoc_set c (File d) es /\ forall sub, assoc c es <> Some (Dir sub).
Proof.
  simpl. destruct (assoc c es) as [[?|?]|]; try discriminate;
    intros [= <-]; split; congruence.
Qed.

(** Writing a file changes nothing but that file and the directories on
    the way to it. *)
Lemma put_in_frame (p : string) (comps : list string) (d : bytes) :
  forall q es es',
    put_in p comps d es = Ret es' ->
    is_prefix q comps = false ->
    lookup_in q es' = lookup_in q es.
Proof.
  induction comps as [|c rest IH]; intros q es es' H Hq; [discriminate|].
  destruct q as [|x q']; [discriminate|]. simpl in Hq.
  rewrite !lookup_in_step.
  destruct (String.eqb_spec x c) as [->|Hx].
  - simpl in Hq. destruct rest as [|c2 rest].
    + apply put_in_single in H. destruct H as [-> Hnd].
      rewrite assoc_set_same. apply is_prefix_nil in Hq.
      destruct (assoc c es) as [[data|sub]|];
        [|now contradiction (Hnd sub)|]; destruct q'; congruence.
    + rewrite put_in_step in H.
      destruct (assoc c es) as [[data|sub]|] eqn:A; try discriminate.
      destruct (put_in p (c2 :: rest) d sub) as [sub'|e] eqn:R; simpl in H; [|discriminate].
      inversion H; subst es'. rewrite assoc_set_same. exact (IH _ _ _ R Hq).
  - assert (E : assoc x es' = assoc x es).
    { destruct rest as [|c2 rest].
      - apply put_in_single in H. destruct H as [-> _]. now apply assoc_set_other.
      - rewrite put_in_step in H.
        destruct (assoc c es) as [[data|sub]|]; try discriminate.
        destruct (put_in p (c2 :: rest) d sub); simpl in H; [|discriminate].
        inversion H. now apply assoc_set_other. }
    now rewrite E.
Qed.

(** A second write undoes the first. *)
Lemma put_in_put_in (p : string) (comps : list string) (d1 d2 : bytes) :
  forall es es1,
    put_in p comps d1 es = Ret es1 ->
    put_in p comps d2 es1 = put_in p comps d2 es.
Proof.
  induction comps as [|c rest IH]; intros es es1 H; [discriminate|].
  destruct rest as [|c2 rest].
  - apply put_in_single in H. destruct H as [-> Hnd]. simpl.
    rewrite assoc_set_same, assoc_set_set.
    destruct (assoc c es) as [[data|sub]|]; try reflexivity.
    now contradiction (Hnd sub).
  - rewrite put_in_step in H. rewrite !put_in_step.
    destruct (assoc c es) as [[data|sub]|] eqn:A; try discriminate.
    destruct (put_in p (c2 :: rest) d1 sub) as [sub1|e] eqn:R; simpl in H; [|discriminate].
    inversion H; subst es1. rewrite assoc_set_same, (IH _ _ R).
    destruct (put_in p (c2 :: rest) d2 sub); simpl; [|reflexivity].
    now rewrite assoc_set_set.
Qed.

(** Writing a file keeps every directory a directory. *)
Lemma put_in_keeps_dirs (p : string) (comps : list string) (d : bytes) :
  forall q es es' x,
    put_in p comps d es = Ret es' ->
    lookup_in q es = Some (Dir x) ->
    exists x', lookup_in q es' = Some (Dir x').
Proof.
  induction comps as [|c rest IH]; intros q es es' x H Hq; [discriminate|].
  destruct q as [|k q']; [simpl; eauto|].
  rewrite lookup_in_step in Hq. rewrite lookup_in_step.
  destruct (String.eqb_spec k c) as [->|Hk].
  - destruct rest as [|c2 rest].
    + apply put_in_single in H. destruct H as [-> Hnd].
      destruct (assoc c es) as [[data|sub]|]; try discriminate.
      * destruct q'; discriminate.
      * now contradiction (Hnd sub).
    + rewrite put_in_step in H.
      destruct (assoc c es) as [[data|sub]|] eqn:A; try discriminate.
      destruct (put_in p (c2 :: rest) d sub) as [sub'|e] eqn:R; simpl in H; [|discriminate].
      inversion H; subst es'. rewrite assoc_set_same. exact (IH _ _ _ _ R Hq).
  - assert (E : assoc k es' = assoc k es).
    { destruct rest as [|c2 rest].
      - apply put_in_single in H. destruct H as [-> _]. now apply assoc_set_other.
      - rewrite put_in_step in H.
        destruct (assoc c es) as [[data|sub]|]; try discriminate.
        destruct (put_in p (c2 :: rest) d sub); simpl in H; [|discriminate].
        inversion H. now apply assoc_set_other. }
    rewrite E. destruct (assoc k es) as [[data|sub]|]; try discriminate; eauto.
Qed.

(** *** The transfer, block by block *)

Section Transfer.

Variable filename : string.
Variable hook : Z -> Z -> Z -> M unit.
Variables bs size : Z.
Variable P : event -> Prop.
Hypothesis hook_ok : hook_emits hook bs size P.

(** The loop keeps the file equal to what has been written so far, on top
    of the file system as it was when the file was opened. *)
Lemma retrieve_loop_full (pending : list bytes) (err : option exn) :
  forall read bn fs0 fs d,
    fs_put filename d fs0 = Ret fs ->
    exists r fs' t written rest,
      retrieve_loop filename hook bs size pending err read bn fs = (r, fs', t)
      /\ fs_put filename (d ++ written)%list fs0 = Ret fs'
      /\ payload pending = (written ++ rest)%list
      /\ Forall P t
      /\ (forall n, r = Ret n ->
            rest = [] /\ n = read + Z.of_nat (List.length written)
            /\ List.length t = blocks_received pending).
Proof.
  induction pending as [|block tail IH]; intros read bn fs0 fs d Hput.
  - simpl. destruct err as [e|]; unfold raise, ret.
    + exists (Raise e), fs, [], [], []. rewrite app_nil_r.
      repeat apply conj; auto. intros n [=].
    + exists (Ret read), fs, [], [], []. rewrite app_nil_r.
      repeat apply conj; auto. intros n [= <-]. simpl. repeat apply conj; auto. lia.
  - destruct block as [|b bl].
    + simpl. unfold ret. exists (Ret read), fs, [], [], []. rewrite app_nil_r.
      repeat apply conj; auto. intros n [= <-]. simpl. repeat apply conj; auto. lia.
    + cbn [retrieve_loop payload blocks_received].
      unfold bind at 1, fs_update at 1.
      pose proof (put_in_lookup _ _ _ _ _ Hput) as Hl.
      fold (fs_lookup filename fs) in Hl.
      destruct (fs_append_ok filename (b :: bl) d fs Hl) as [fs1 H1].
      rewrite H1.
      assert (Hput1 : fs_put filename (d ++ b :: bl)%list fs0 = Ret fs1).
      { unfold fs_append in H1. rewrite Hl in H1. unfold fs_put in *.
        now rewrite (put_in_put_in _ _ _ _ _ _ Hput) in H1. }
      unfold bind at 1.
      destruct (hook_ok (bn + 1) fs1) as (r1 & t1 & E1 & P1 & L1).
      rewrite E1. destruct r1 as [[]|e].
      * destruct (IH (read + Z.of_nat (List.length (b :: bl))) (bn + 1) fs0 fs1 _ Hput1)
          as (r & fs' & t & written & rest & E & Hw & Hp & Pt & F).
        rewrite E. exists r, fs', (t1 ++ t)%list, ((b :: bl) ++ written)%list, rest.
        repeat apply conj; auto.
        -- now rewrite app_assoc.
        -- rewrite Hp. now rewrite <- app_assoc.
        -- apply Forall_app. auto.
        -- intros n Hn. destruct (F n Hn) as (-> & -> & Hlen).
           repeat apply conj; auto.
           ++ rewrite !length_app, Nat2Z.inj_add. lia.
           ++ rewrite length_app, (L1 eq_refl), Hlen. reflexivity.
      * exists (Raise e), fs1, t1, (b :: bl)%list, (payload tail).
        repeat apply conj; auto. intros n [=].
Qed.

End Transfer.

(** What [urlretrieve] leaves: either nothing was touched, the request or
    the opening of the file having failed, or the file holds the bytes
    written so far, everything else being as before. *)
Lemma urlretrieve_full (net : server) (url filename : string)
      (hook : Z -> Z -> Z -> M unit) (P : event -> Prop) (fs : dir) :
  (forall resp, net = Responds resp ->
                hook_emits hook (1024 * 8) (announced_size resp) P) ->
  exists r fs' t,
    urlretrieve net url filename hook fs = (r, fs', EvUrlretrieve url filename :: t)
    /\ Forall P t
    /\ ((fs' = fs /\ exists e, r = Raise e /\
           (net = Unreachable e \/ fs_put filename [] fs = Raise e))
        \/
        (exists resp written rest,
           net = Responds resp
           /\ (exists fs0, fs_put filename [] fs = Ret fs0)
           /\ fs_put filename written fs = Ret fs'
           /\ payload (reads resp) = (written ++ rest)%list
           /\ (r = Ret tt ->
               rest = []
               /\ (forall n, content_length resp = Some n ->
                             n <= Z.of_nat (List.length written))
               /\ List.length t = S (blocks_received (reads resp))))).
Proof.
  intros Hh. unfold urlretrieve, bind at 1, emit.
  destruct net as [e|resp]; unfold urlopen.
  - unfold bind, raise. exists (Raise e), fs, []. repeat apply conj; auto.
    left. split; eauto.
  - specialize (Hh resp eq_refl).
    unfold bind at 1, ret. unfold bind at 1, fs_update.
    destruct (fs_put filename [] fs) as [fs1|e] eqn:Hput.
    2:{ exists (Raise e), fs, []. repeat apply conj; auto. left. split; eauto. }
    unfold bind at 1.
    change (match content_length resp with Some n => n | None => -1 end)
      with (announced_size resp).
    set (size := announced_size resp) in *.
    destruct (Hh 0 fs1) as (r0 & t0 & E0 & P0 & L0). rewrite E0.
    destruct r0 as [[]|e].
    2:{ exists (Raise e), fs1, t0. repeat apply conj; auto. right.
        exists resp, [], (payload (reads resp)). repeat apply conj; eauto.
        intros [=]. }
    unfold bind at 1.
    destruct (retrieve_loop_full filename hook (1024 * 8) size P Hh
                (reads resp) (read_error resp) 0 0 fs fs1 [] Hput)
      as (r & fs' & t & written & rest & E & Hw & Hp & Pt & F).
    rewrite E. simpl app in Hw. destruct r as [n|e].
    2:{ exists (Raise e), fs', (t0 ++ t)%list. repeat apply conj; auto.
        - apply Forall_app; auto.
        - right. exists resp, written, rest. repeat apply conj; eauto. intros [=]. }
    destruct (F n eq_refl) as (-> & Hn & Hlen).
    destruct ((size >=? 0) && (n <? size))%bool eqn:Short; unfold raise, ret.
    + exists (Raise (content_too_short n size)), fs', (t0 ++ t ++ [])%list.
      repeat apply conj; auto.
      * rewrite app_nil_r. apply Forall_app; auto.
      * right. exists resp, written, []. repeat apply conj; eauto. intros [=].
    + exists (Ret tt), fs', (t0 ++ t ++ [])%list.
      repeat apply conj; auto.
      * rewrite app_nil_r. apply Forall_app; auto.
      * right. exists resp, written, []. repeat apply conj; eauto.
        intros _. repeat apply conj; auto.
        -- intros m Hm. unfold size, announced_size in Short. rewrite Hm in Short.
           apply andb_false_iff in Short. destruct Short as [S|S].
           ++ rewrite Z.geb_leb in S. apply Z.leb_gt in S. lia.
           ++ apply Z.ltb_ge in S. lia.
        -- rewrite app_nil_r, length_app, (L0 eq_refl), Hlen. reflexivity.
Qed.

(** Two file systems on which opening the file gives the same state are
    the same to [urlretrieve]. *)
Lemma urlretrieve_restart (resp : response) (url filename : string)
      (hook : Z -> Z -> Z -> M unit) (fsA fsB fs0 : dir) :
  fs_put filename [] fsA = Ret fs0 ->
  fs_put filename [] fsB = Ret fs0 ->
  urlretrieve (Responds resp) url filename hook fsA
  = urlretrieve (Responds resp) url filename hook fsB.
Proof.
  intros HA HB. unfold urlretrieve, bind at 1, emit, urlopen.
  unfold bind at 1, ret. unfold bind at 1, fs_update. rewrite HA.
  symmetry. unfold bind at 1. unfold bind at 1, ret. unfold bind at 1. rewrite HB.
  reflexivity.
Qed.

(** The [try] body after [urlretrieve]: the size is asked for and the
    report printed; the file system is no longer touched. *)
Lemma download_body_unfold (out : stdout) (net : server) (fs : dir) :
  download_body out net fs =
  match urlretrieve net model_url model_path (download_progress out) fs with
  | (Raise e, fs', t) => (Raise e, fs', t)
  | (Ret _, fs', t) =>
      match rbind (fs_getsize model_path fs')
                  (fun size => int_truediv size (1024 * 1024)) with
      | Raise e => (Raise e, fs', t ++ [EvGetsize model_path])%list
      | Ret file_size =>
          match write_error out success_text with
          | Some x => (Raise x, fs', t ++ [EvGetsize model_path])%list
          | None =>
              (Ret tt, fs',
               t ++ EvGetsize model_path :: success_events file_size)%list
          end
      end
  end.
Proof.
  unfold download_body, bind at 1.
  destruct (urlretrieve net model_url model_path (download_progress out) fs)
    as [[[[]|e] fs'] t]; [|reflexivity].
  unfold bind at 1, os_path_getsize, bind at 1, emit, fs_read.
  destruct (fs_getsize model_path fs') as [size|e]; cbn [rbind]; [|reflexivity].
  unfold bind at 1, lift.
  destruct (int_truediv size (1024 * 1024)) as [file_size|e]; [|reflexivity].
  unfold bind at 1. rewrite print_run.
  change (LF ++ LF ++ "✓ Model downloaded successfully!")%string with success_text.
  destruct (write_error out success_text); [reflexivity|].
  unfold bind at 1. rewrite print_ascii.
  2:{ now rewrite !is_ascii_app, format_float_ascii. }
  unfold success_events, success_text. rewrite <- !append_assoc. reflexivity.
Qed.

Lemma download_progress_emits (out : stdout) (bs size : Z) :
  hook_emits (download_progress out) bs size any_print.
Proof.
  intros a fs. rewrite download_progress_run.
  destruct (rbind _ _) as [line|e].
  - exists (Ret tt), [EvPrint (line ++ "")]. repeat apply conj; auto.
    repeat constructor.
  - exists (Raise e), []. repeat apply conj; auto. intros [=].
Qed.

(** With a total size of [-1] the percentage is the int 0 and the total
    a small negative number of megabytes: both print as zero, the second
    with its sign. *)
Lemma download_progress_unknown (out : stdout) (bs : Z) :
  hook_emits (download_progress out) bs (-1) unknown_size_line.
Proof.
  intros a fs. rewrite download_progress_run.
  unfold progress_values, percent_of. change (-1 >? 0) with false. cbv iota.
  cbn [rbind].
  destruct (int_truediv (a * bs) (1024 * 1024)) as [d|e]; cbn [rbind].
  - exists (Ret tt),
      [EvPrint (CR ++ "Progress: 0.0% (" ++ format_float 1 d ++ "/-0.0 MB)")].
    repeat apply conj; auto.
    + f_equal. f_equal. f_equal.
      change (int_truediv (-1) (1024 * 1024))
        with (Ret (A := float) (S754_finite true 4503599627370496 (-72))).
      cbn [rbind]. unfold progress_line. cbn [percent mb_downloaded mb_total].
      change (format_f 1 (PyInt 0)) with (Ret (A := string) "0.0"%string).
      unfold format_f, float_of_pyval. cbn [rbind].
      change (format_float 1 (S754_finite true 4503599627370496 (-72)))
        with "-0.0"%string.
      rewrite append_nil_r. reflexivity.
    + constructor; [|constructor]. exists (format_float 1 d). reflexivity.
  - exists (Raise e), []. repeat apply conj; auto. intros [=].
Qed.

Lemma same_kind_refl (n : node) : same_kind n n = true.
Proof. now destruct n. Qed.

(** Creating directories removes nothing and turns no file into a
    directory. *)
Lemma makedirs_in_keeps_kind (p : string) (comps : list string) :
  forall q es es' n,
    makedirs_in p comps es = Ret es' ->
    lookup_in q es = Some n ->
    exists n', lookup_in q es' = Some n' /\ same_kind n n' = true.
Proof.
  induction comps as [|c rest IH]; intros q es es' n H Hq.
  - simpl in H. inversion H; subst es'. exists n. split; [assumption|apply same_kind_refl].
  - destruct q as [|k q'].
    { simpl in Hq. inversion Hq; subst n. simpl. eauto. }
    rewrite lookup_in_step in Hq. rewrite lookup_in_step. simpl in H.
    destruct (String.eqb_spec k c) as [->|Hk].
    + destruct (assoc c es) as [[data|sub]|] eqn:A; try discriminate.
      * destruct rest; discriminate.
      * destruct (makedirs_in p rest sub) as [sub'|e] eqn:R; simpl in H; [|discriminate].
        inversion H; subst es'. rewrite assoc_set_same. exact (IH _ _ _ _ R Hq).
    + assert (E : assoc k es' = assoc k es).
      { destruct (assoc c es) as [[data|sub]|].
        - destruct rest; discriminate.
        - destruct (makedirs_in p rest sub); simpl in H; [|discriminate].
          inversion H. now apply assoc_set_other.
        - destruct (makedirs_in p rest []); simpl in H; [|discriminate].
          inversion H. now apply assoc_set_other. }
      rewrite E. exists n. split; [assumption|apply same_kind_refl].
Qed.

(** Writing a file removes nothing and keeps files files and directories
    directories. *)
Lemma put_in_keeps_kind (p : string) (comps : list string) (d : bytes) :
  forall q es es' n,
    put_in p comps d es = Ret es' ->
    lookup_in q es = Some n ->
    exists n', lookup_in q es' = Some n' /\ same_kind n n' = true.
Proof.
  induction comps as [|c rest IH]; intros q es es' n H Hq; [discriminate|].
  destruct q as [|k q'].
  { simpl in Hq. inversion Hq; subst n. simpl. eauto. }
  rewrite lookup_in_step in Hq. rewrite lookup_in_step.
  destruct (String.eqb_spec k c) as [->|Hk].
  - destruct rest as [|c2 rest].
    + apply put_in_single in H. destruct H as [-> Hnd]. rewrite assoc_set_same.
      destruct (assoc c es) as [[data|sub]|]; try discriminate.
      * destruct q'; [|discriminate]. inversion Hq; subst n. eauto.
      * now contradiction (Hnd sub).
    + rewrite put_in_step in H.
      destruct (assoc c es) as [[data|sub]|] eqn:A; try discriminate.
      destruct (put_in p (c2 :: rest) d sub) as [sub'|e] eqn:R; simpl in H; [|discriminate].
      inversion H; subst es'. rewrite assoc_set_same. exact (IH _ _ _ _ R Hq).
  - assert (E : assoc k es' = assoc k es).
    { destruct rest as [|c2 rest].
      - apply put_in_single in H. destruct H as [-> _]. now apply assoc_set_other.
      - rewrite put_in_step in H.
        destruct (assoc c es) as [[data|sub]|]; try discriminate.
        destruct (put_in p (c2 :: rest) d sub); simpl in H; [|discriminate].
        inversion H. now apply assoc_set_other. }
    rewrite E. exists n. split; [assumption|apply same_kind_refl].
Qed.

End EffectFacts.

(** ** What a run leaves behind, and what it prints on the way *)

Module RunEffects.

Import PyNum Env Script Report ProgressSpec Samples Effects.
Import EnvFacts TextFacts ScriptFacts EffectFacts.

Lemma final_fs_run (out : stdout) (net : server) (fs fs1 : dir) :
  fs_makedirs models_dir fs = Ret fs1 ->
  final_fs (run out net fs)
  = snd (fst (urlretrieve net model_url model_path (download_progress out) fs1)).
Proof.
  intros Hd. rewrite (run_dir_ok out net fs fs1 Hd), download_body_unfold.
  destruct (urlretrieve net model_url model_path (download_progress out) fs1)
    as [[[[]|e] fs'] t].
  - destruct (rbind _ _) as [file_size|e].
    + destruct (write_error out success_text) as [x|]; [|reflexivity].
      now destruct (write_error out (error_text x)).
    + now destruct (write_error out (error_text e)).
  - now destruct (write_error out (error_text e)).
Qed.

Lemma is_prefix_app (q l1 l2 : list string) :
  is_prefix q l1 = true -> is_prefix q (l1 ++ l2) = true.
Proof.
  revert l1. induction q as [|x q IH]; intros l1 H; [reflexivity|].
  destruct l1 as [|y l1]; [discriminate|]. simpl in *.
  apply andb_true_iff in H. destruct H as [-> H]. now rewrite IH.
Qed.

Lemma destination_split :
  destination = (components models_dir ++ ["facenet.tflite"%string])%list.
Proof. reflexivity. Qed.

Lemma off_destination_off_directory (q : list string) :
  is_prefix q destination = false -> is_prefix q (components models_dir) = false.
Proof.
  intros H. destruct (is_prefix q (components models_dir)) eqn:E; [|reflexivity].
  rewrite destination_split, (is_prefix_app _ _ _ E) in H. discriminate.
Qed.

(** The state [urlretrieve] leaves, for the script's call. *)
Lemma transfer_state (out : stdout) (net : server) (fs1 : dir) :
  let fs' := snd (fst (urlretrieve net model_url model_path (download_progress out) fs1)) in
  fs' = fs1 \/ exists written, fs_put model_path written fs1 = Ret fs'.
Proof.
  destruct (urlretrieve_full net model_url model_path (download_progress out) any_print fs1
              (fun resp _ => download_progress_emits out _ _))
    as (r & fs' & t & E & _ & [[-> _]|(resp & written & rest & _ & _ & Hw & _)]);
    rewrite E; simpl; eauto.
Qed.

(** X1: running the script again on the file system a run has left, against
    the same server, gives the same outcome, the same file system and the
    same console output: the file is rewritten, not appended to, and the
    directory is made only once. *)
Theorem rerun_reproduces (out : stdout) (net : server) (fs : dir) :
  run out net (final_fs (run out net fs)) = run out net fs.
Proof.
  destruct (fs_makedirs models_dir fs) as [fs1|e] eqn:Hd.
  2:{ rewrite (run_dir_failure out net fs e Hd). unfold final_fs. cbn [fst snd].
      exact (run_dir_failure out net fs e Hd). }
  rewrite (final_fs_run out net fs fs1 Hd).
  pose proof (makedirs_in_idem _ _ _ _ Hd) as Hd1. fold (fs_makedirs models_dir fs1) in Hd1.
  destruct (makedirs_in_creates _ _ _ _ Hd) as [x Hx].
  destruct (urlretrieve_full net model_url model_path (download_progress out) any_print fs1
              (fun resp _ => download_progress_emits out _ _))
    as (r & fs' & t & E & _ & [[-> _]|(resp & written & rest & -> & [fs0 H0] & Hw & _)]);
    rewrite E; cbn [fst snd].
  - now rewrite (run_dir_ok out net fs1 fs1 Hd1), (run_dir_ok out net fs fs1 Hd).
  - destruct (put_in_keeps_dirs _ _ _ _ _ _ _ Hw Hx) as [x' Hx'].
    pose proof (makedirs_in_present models_dir _ _ _ Hx') as Hd'.
    fold (fs_makedirs models_dir fs') in Hd'.
    rewrite (run_dir_ok out _ fs' fs' Hd'), (run_dir_ok out _ fs fs1 Hd).
    rewrite !download_body_unfold.
    assert (H0' : fs_put model_path [] fs' = Ret fs0).
    { unfold fs_put in *. now rewrite (put_in_put_in _ _ _ _ _ _ Hw). }
    now rewrite (urlretrieve_restart resp _ _ _ fs' fs1 fs0 H0' H0).
Qed.

(** X2: a run changes nothing in the file system but the destination file
    and the directories on the way to it.  The file system being a tree,
    every relative path without [.] and [..] that does not lead to one of
    these denotes after the run what it denoted before, whether the run
    succeeds or not. *)
Theorem only_destination_changes
        (out : stdout) (net : server) (fs : dir) (p : string) :
  plain_path p = true ->
  is_prefix (components p) destination = false ->
  fs_lookup p (final_fs (run out net fs)) = fs_lookup p fs.
Proof.
  intros _ Hp. unfold fs_lookup.
  destruct (fs_makedirs models_dir fs) as [fs1|e] eqn:Hd.
  2:{ now rewrite (run_dir_failure out net fs e Hd). }
  rewrite (final_fs_run out net fs fs1 Hd).
  rewrite <- (makedirs_in_frame _ _ _ _ _ Hd (off_destination_off_directory _ Hp)).
  destruct (transfer_state out net fs1) as [->|[written Hw]]; [reflexivity|].
  exact (put_in_frame _ _ _ _ _ _ Hw Hp).
Qed.

Lemma only_destination_changes_witness :
  fs_lookup "assets/models/other.tflite" (final_fs (run utf8_stdout net_small fs_neighbours))
  = fs_lookup "assets/models/other.tflite" fs_neighbours.
Proof.
  apply (only_destination_changes utf8_stdout net_small fs_neighbours
           "assets/models/other.tflite"); reflexivity.
Defined.

(** X3: when the server cannot be reached, the destination is as it was:
    a model downloaded earlier is still there, untouched. *)
Theorem unreachable_keeps_file (out : stdout) (e : exn) (fs : dir) :
  fs_lookup model_path (final_fs (run out (Unreachable e) fs)) = fs_lookup model_path fs.
Proof.
  unfold fs_lookup.
  destruct (fs_makedirs models_dir fs) as [fs1|e'] eqn:Hd.
  2:{ now rewrite (run_dir_failure out _ fs e' Hd). }
  rewrite (final_fs_run out _ fs fs1 Hd).
  change (snd (fst (urlretrieve (Unreachable e) model_url model_path
                      (download_progress out) fs1))) with fs1.
  apply (makedirs_in_frame _ _ _ _ _ Hd). reflexivity.
Qed.




(** On the sample the seven old bytes give way to the three received. *)
Example broken_transfer_sample :
  fs_lookup model_path (final_fs (run utf8_stdout net_broken fs_downloaded)) = Some (File (block_of 3))
  /\ exit_status (outcome_of (run utf8_stdout net_broken fs_downloaded)) = 0.
Proof. split; vm_compute; reflexivity. Qed.

(** X5: on a standard output that can encode every text, the exit status
    is 0 exactly when the directory-creation step succeeds; it says nothing
    about the download. *)
Theorem exit_status_reflects_directory (out : stdout) (net : server) (fs : dir) :
  encodes_all out ->
  (exit_status (outcome_of (run out net fs)) = 0
   <-> exists fs1, fs_makedirs models_dir fs = Ret fs1).
Proof.
  intros Hout.
  destruct (fs_makedirs models_dir fs) as [fs1|e] eqn:Hd.
  - rewrite (run_dir_ok out net fs fs1 Hd).
    destruct (download_body out net fs1) as [[[[]|e] fs2] t].
    + simpl. split; eauto.
    + rewrite (Hout (error_text e)). simpl. split; eauto.
  - rewrite (run_dir_failure out net fs e Hd). simpl. split; [discriminate|].
    intros [fs1 [=]].
Qed.

Lemma exit_status_reflects_directory_witness :
  exit_status (outcome_of (run utf8_stdout net_unreachable fs_empty)) = 0
  <-> exists fs1, fs_makedirs models_dir fs_empty = Ret fs1.
Proof.
  apply (exit_status_reflects_directory utf8_stdout net_unreachable fs_empty).
  intros s. unfold write_error. destruct (is_ascii s); reflexivity.
Defined.

(** X6: after every run that ends with exit status 0 the directory
    [assets/models] exists, whatever became of the download. *)
Theorem directory_exists_after_run (out : stdout) (net : server) (fs : dir) :
  exit_status (outcome_of (run out net fs)) = 0 ->
  is_dir models_dir (final_fs (run out net fs)) = true.
Proof.
  intros H. destruct (fs_makedirs models_dir fs) as [fs1|e] eqn:Hd.
  2:{ rewrite (run_dir_failure out net fs e Hd) in H. discriminate H. }
  rewrite (final_fs_run out net fs fs1 Hd).
  destruct (makedirs_in_creates _ _ _ _ Hd) as [x Hx].
  unfold is_dir, fs_lookup.
  destruct (transfer_state out net fs1) as [->|[written Hw]].
  - now rewrite Hx.
  - destruct (put_in_keeps_dirs _ _ _ _ _ _ _ Hw Hx) as [x' ->]. reflexivity.
Qed.

Lemma directory_exists_after_run_witness :
  is_dir models_dir (final_fs (run utf8_stdout net_unreachable fs_empty)) = true.
Proof.
  apply (directory_exists_after_run utf8_stdout net_unreachable fs_empty).
  reflexivity.
Defined.

Lemma same_kind_trans (a b c : node) :
  same_kind a b = true -> same_kind b c = true -> same_kind a c = true.
Proof. destruct a, b, c; simpl; congruence. Qed.

(** X12: a run removes nothing: every path that denotes a file or a
    directory before the run denotes one of the same kind after it. *)
Theorem nothing_is_removed (out : stdout) (net : server) (fs : dir) (p : string) (n : node) :
  fs_lookup p fs = Some n ->
  exists n', fs_lookup p (final_fs (run out net fs)) = Some n' /\ same_kind n n' = true.
Proof.
  unfold fs_lookup. intros Hp.
  destruct (fs_makedirs models_dir fs) as [fs1|e] eqn:Hd.
  2:{ rewrite (run_dir_failure out net fs e Hd). exists n.
      split; [assumption|apply same_kind_refl]. }
  rewrite (final_fs_run out net fs fs1 Hd).
  destruct (makedirs_in_keeps_kind _ _ _ _ _ _ Hd Hp) as (n1 & H1 & K1).
  destruct (transfer_state out net fs1) as [->|[written Hw]]; [eauto|].
  destruct (put_in_keeps_kind _ _ _ _ _ _ _ Hw H1) as (n2 & H2 & K2).
  exists n2. split; [assumption|exact (same_kind_trans _ _ _ K1 K2)].
Qed.

Lemma nothing_is_removed_witness :
  exists n', fs_lookup "assets/models/facenet.tflite"
               (final_fs (run utf8_stdout net_small fs_neighbours)) = Some n'
             /\ same_kind (File (block_of 7)) n' = true.
Proof.
  apply (nothing_is_removed utf8_stdout net_small fs_neighbours
           "assets/models/facenet.tflite"
           (File (block_of 7))).
  reflexivity.
Defined.

Lemma write_error_refused (out : stdout) (s : string) :
  ascii_only out -> is_ascii s = false -> exists x, write_error out s = Some x.
Proof.
  intros Hout Hs. unfold write_error. rewrite Hs.
  destruct (out s) as [text|] eqn:E; [simpl; eauto|].
  now contradiction (Hout s Hs).
Qed.

(** X13: on a standard output that can encode ASCII text only, no run ends
    with exit status 0: the report of success and the report of a failure
    both begin with a character it cannot encode, so every run that gets
    past the directory-creation step ends with the exception [print]
    raises in the [except] clause, also when the download is complete. *)
Theorem ascii_stdout_exit_status (out : stdout) (net : server) (fs : dir) :
  ascii_only out ->
  exit_status (outcome_of (run out net fs)) = 1.
Proof.
  intros Hout.
  destruct (fs_makedirs models_dir fs) as [fs1|e] eqn:Hd.
  2:{ now rewrite (run_dir_failure out net fs e Hd). }
  rewrite (run_dir_ok out net fs fs1 Hd).
  assert (Hrep : forall e, exists x, write_error out (error_text e) = Some x).
  { intros e. apply write_error_refused; [assumption|reflexivity]. }
  destruct (write_error_refused out success_text Hout eq_refl) as [y Hy].
  rewrite download_body_unfold.
  destruct (urlretrieve net model_url model_path (download_progress out) fs1)
    as [[[[]|e] fs'] t].
  - destruct (rbind _ _) as [file_size|e].
    + rewrite Hy. destruct (Hrep y) as [x ->]. reflexivity.
    + destruct (Hrep e) as [x ->]. reflexivity.
  - destruct (Hrep e) as [x ->]. reflexivity.
Qed.

Lemma ascii_stdout_exit_status_witness :
  exit_status (outcome_of (run ascii_stdout net_small fs_empty)) = 1.
Proof.
  apply (ascii_stdout_exit_status ascii_stdout net_small fs_empty).
  intros s _. unfold ascii_stdout. destruct (ascii_prefix s). discriminate.
Defined.

(** On that sample the five bytes have all been written. *)
Example ascii_stdout_sample :
  fs_lookup model_path (final_fs (run ascii_stdout net_small fs_empty))
    = Some (File (block_of 5))
  /\ outcome_of (run ascii_stdout net_small fs_empty) = Raise cross_refused.
Proof. split; vm_compute; reflexivity. Qed.

End RunEffects.

(** ** What a run prints while the transfer goes on, and at its end *)

Module RunConsole.

Import PyNum Env Script Report ProgressSpec Rounding Samples Effects.
Import EnvFacts TextFacts ScriptFacts RoundingFacts NumberFacts EffectFacts RunEffects.

(** X7: while the bytes counted stay within a positive total size,
    [0 <= block_num * block_size <= total_size], the percentage is computed
    (no exception) and is a float between [0.0] and [100.0]. *)
Theorem percent_within_range (bn bs ts : Z) :
  0 < ts -> 0 <= bn * bs <= ts ->
  exists p,
    percent_of (bn * bs) ts = Ret (PyFloat p)
    /\ float_leb zero p = true /\ float_leb p hundred = true.
Proof.
  intros Hts [H0 H1].
  assert (Hq : exists q, int_truediv (bn * bs) ts = Ret q).
  { rewrite int_truediv_shape by assumption.
    destruct (bn * bs) as [|pd|pd] eqn:D; try lia; [eauto|].
    pose proof (quotient_exp_bound (Z.pos pd) ts ltac:(lia) Hts ltac:(nia)) as He.
    destruct (quotient_in_order (Z.pos pd) (Z.pos pd) ts ltac:(lia) ltac:(lia) Hts)
      as (HM & _).
    rewrite float_of_rounded_norm by assumption. unfold overflow_check.
    destruct (_ =? 0); [eauto|].
    destruct (Z.leb_spec (norm_exp (quotient_mant (Z.pos pd) ts)
                                   (quotient_exp (Z.pos pd) ts)) 971);
      [eauto|lia]. }
  destruct Hq as [q Hq].
  exists (SFmul prec emax q hundred). repeat apply conj.
  - unfold percent_of. destruct (Z.gtb_spec ts 0); [|lia].
    rewrite Hq. cbn [rbind]. rewrite float_mul_int_100. reflexivity.
  - assert (Hz : int_truediv 0 ts = Ret (S754_zero false))
      by (rewrite int_truediv_shape by assumption; reflexivity).
    exact (percent_floats_in_order 0 (bn * bs) ts _ _ Hts H0 Hz Hq).
  - assert (Hs : int_truediv ts ts = Ret one)
      by (destruct ts; try lia; apply Progress.int_truediv_self).
    exact (percent_floats_in_order (bn * bs) ts ts _ _ Hts H1 Hq Hs).
Qed.

Lemma percent_within_range_witness :
  exists p,
    percent_of (1 * 8192) 10000 = Ret (PyFloat p)
    /\ float_leb zero p = true /\ float_leb p hundred = true.
Proof. apply (percent_within_range 1 8192 10000); lia. Defined.

(** The trace of a run whose directory step succeeds, from the outcome of
    [urlretrieve]. *)
Lemma run_trace (out : stdout) (net : server) (fs fs1 : dir) :
  fs_makedirs models_dir fs = Ret fs1 ->
  exists outcome,
    outcome_report out outcome /\
    trace_of (run out net fs) =
      (EvMakedirs models_dir :: banner_events
         ++ snd (urlretrieve net model_url model_path (download_progress out) fs1)
         ++ outcome)%list.
Proof.
  intros Hd. rewrite (run_dir_ok out net fs fs1 Hd), download_body_unfold.
  assert (Hfail : forall e fs' t extra,
             (extra = [] \/ extra = [EvGetsize model_path]) ->
             exists outcome,
               outcome_report out outcome /\
               trace_of
                 match write_error out (error_text e) with
                 | None =>
                     (Ret tt, fs',
                      EvMakedirs models_dir
                        :: banner_events ++ (t ++ extra) ++ failure_events e)
                 | Some x =>
                     (Raise x, fs',
                      EvMakedirs models_dir :: banner_events ++ t ++ extra)
                 end
               = (EvMakedirs models_dir :: banner_events ++ t ++ outcome)%list).
  { intros e fs' t extra Hx.
    destruct (write_error out (error_text e)) as [x|] eqn:W.
    - exists extra. split; [|reflexivity].
      right. right. right. exists e, x. auto.
    - exists (extra ++ failure_events e)%list. split.
      + destruct Hx as [-> | ->]; [right; left|right; right; left];
          exists e; reflexivity.
      + unfold trace_of, snd. now rewrite <- app_assoc. }
  destruct (urlretrieve net model_url model_path (download_progress out) fs1)
    as [[[[]|e] fs'] t]; cbn [snd].
  - destruct (rbind _ _) as [file_size|e].
    + destruct (write_error out success_text) as [y|].
      * apply (Hfail y fs' t [EvGetsize model_path]). auto.
      * exists (EvGetsize model_path :: success_events file_size).
        split; [left; eauto|reflexivity].
    + apply (Hfail e fs' t [EvGetsize model_path]). auto.
  - destruct (Hfail e fs' t [] (or_introl eq_refl)) as (outcome & Ho & Ht).
    exists outcome. split; [assumption|].
    rewrite app_nil_r in Ht. exact Ht.
Qed.

(** X8: when the server announces no length, every progress line of the
    run shows a percentage of 0.0 and a total of -0.0 MB, however many
    blocks arrive. *)
Theorem unknown_size_progress (out : stdout) (resp : response) (fs fs1 : dir) :
  content_length resp = None ->
  fs_makedirs models_dir fs = Ret fs1 ->
  exists progress outcome,
    trace_of (run out (Responds resp) fs) =
      (EvMakedirs models_dir :: banner_events
         ++ EvUrlretrieve model_url model_path :: progress ++ outcome)%list
    /\ Forall unknown_size_line progress
    /\ outcome_report out outcome.
Proof.
  intros Hn Hd.
  destruct (run_trace out (Responds resp) fs fs1 Hd) as (outcome & Ho & Ht).
  assert (Hh : forall resp', Responds resp = Responds resp' ->
                 hook_emits (download_progress out) (1024 * 8) (announced_size resp')
                            unknown_size_line).
  { intros resp' [= <-]. unfold announced_size. rewrite Hn.
    apply download_progress_unknown. }
  destruct (urlretrieve_full (Responds resp) model_url model_path (download_progress out)
              unknown_size_line fs1 Hh) as (r & fs' & t & E & Pt & _).
  rewrite E in Ht. cbn [snd] in Ht.
  exists t, outcome. auto.
Qed.

Lemma unknown_size_progress_witness :
  exists progress outcome,
    trace_of (run utf8_stdout net_no_length fs_empty) =
      (EvMakedirs models_dir :: banner_events
         ++ EvUrlretrieve model_url model_path :: progress ++ outcome)%list
    /\ Forall unknown_size_line progress
    /\ outcome_report utf8_stdout outcome.
Proof.
  apply (unknown_size_progress utf8_stdout
           (mk_response None [block_of 4; block_of 4; block_of 1] None)
           fs_empty [("assets", Dir [("models", Dir [])])]); reflexivity.
Defined.

(** What a successful run has gone through. *)
Lemma success_details (out : stdout) (net : server) (fs : dir) :
  succeeds out net fs ->
  exists resp progress file_size,
    net = Responds resp
    /\ trace_of (run out net fs) =
         (EvMakedirs models_dir :: banner_events
            ++ EvUrlretrieve model_url model_path :: progress
            ++ EvGetsize model_path :: success_events file_size)%list
    /\ Forall any_print progress
    /\ List.length progress = S (blocks_received (reads resp))
    /\ fs_lookup model_path (final_fs (run out net fs)) = Some (File (payload (reads resp)))
    /\ int_truediv (Z.of_nat (List.length (payload (reads resp)))) (1024 * 1024)
       = Ret file_size
    /\ (forall n, content_length resp = Some n ->
                  n <= Z.of_nat (List.length (payload (reads resp)))).
Proof.
  intros (fs1 & fs2 & t & Hd & Hb).
  rewrite (run_dir_ok out net fs fs1 Hd), Hb. rewrite download_body_unfold in Hb.
  destruct (urlretrieve_full net model_url model_path (download_progress out) any_print fs1
              (fun resp _ => download_progress_emits out _ _))
    as (r & fs' & tu & E & Pt & Hs).
  rewrite E in Hb. destruct r as [[]|e]; [|discriminate].
  destruct Hs as [[_ (e & [=] & _)]|(resp & written & rest & -> & _ & Hw & Hp & Hr)].
  destruct (Hr eq_refl) as (-> & Hlen & Hcount). rewrite app_nil_r in Hp. subst written.
  pose proof (put_in_lookup _ _ _ _ _ Hw) as Hl. fold (fs_lookup model_path fs') in Hl.
  unfold fs_getsize in Hb. rewrite Hl in Hb. cbn [rbind] in Hb.
  destruct (int_truediv _ _) as [file_size|e] eqn:D; [|discriminate].
  destruct (write_error out success_text); [discriminate|].
  injection Hb as <- <-.
  exists resp, tu, file_size. unfold trace_of, final_fs. cbn [fst snd].
  repeat apply conj; auto.
Qed.

(** X9: a successful run prints one progress line for each block received,
    and one before the first. *)
Theorem one_line_per_block (out : stdout) (net : server) (fs : dir) :
  succeeds out net fs ->
  exists resp progress outcome,
    net = Responds resp
    /\ trace_of (run out net fs) =
         (EvMakedirs models_dir :: banner_events
            ++ EvUrlretrieve model_url model_path :: progress ++ outcome)%list
    /\ Forall any_print progress
    /\ outcome_report out outcome
    /\ List.length progress = S (blocks_received (reads resp)).
Proof.
  intros H.
  destruct (success_details out net fs H) as (resp & progress & fsz & -> & Ht & Pp & Hc & _).
  exists resp, progress, (EvGetsize model_path :: success_events fsz).
  repeat apply conj; auto. left. eauto.
Qed.

Lemma one_line_per_block_witness :
  exists resp progress outcome,
    net_small = Responds resp
    /\ trace_of (run utf8_stdout net_small fs_empty) =
         (EvMakedirs models_dir :: banner_events
            ++ EvUrlretrieve model_url model_path :: progress ++ outcome)%list
    /\ Forall any_print progress
    /\ outcome_report utf8_stdout outcome
    /\ List.length progress = S (blocks_received (reads resp)).
Proof.
  apply (one_line_per_block utf8_stdout net_small fs_empty).
  exists [("assets", Dir [("models", Dir [])])]. eexists. eexists.
  split; [reflexivity|]. vm_compute. reflexivity.
Defined.

(** X10: success is never reported for a short transfer: after a
    successful run the destination file holds at least as many bytes as the
    server announced, and exactly the blocks received. *)
Theorem success_means_complete (out : stdout) (net : server) (fs : dir) :
  succeeds out net fs ->
  exists resp,
    net = Responds resp
    /\ fs_lookup model_path (final_fs (run out net fs)) = Some (File (payload (reads resp)))
    /\ forall n, content_length resp = Some n ->
                 n <= Z.of_nat (List.length (payload (reads resp))).
Proof.
  intros H.
  destruct (success_details out net fs H)
    as (resp & progress & fsz & -> & _ & _ & _ & Hl & _ & Hn).
  exists resp. auto.
Qed.

Lemma success_means_complete_witness :
  exists resp,
    net_small = Responds resp
    /\ fs_lookup model_path (final_fs (run utf8_stdout net_small fs_empty))
       = Some (File (payload (reads resp)))
    /\ forall n, content_length resp = Some n ->
                 n <= Z.of_nat (List.length (payload (reads resp))).
Proof.
  apply (success_means_complete utf8_stdout net_small fs_empty).
  exists [("assets", Dir [("models", Dir [])])]. eexists. eexists.
  split; [reflexivity|]. vm_compute. reflexivity.
Defined.

(** X11: the size printed after a successful run is that of the bytes
    received: their number divided by 1048576, with two decimals. *)
Theorem reported_file_size (out : stdout) (net : server) (fs : dir) :
  succeeds out net fs ->
  exists resp file_size,
    net = Responds resp
    /\ int_truediv (Z.of_nat (List.length (payload (reads resp)))) (1024 * 1024)
       = Ret file_size
    /\ In (EvPrint ("  File size: " ++ format_float 2 file_size ++ " MB" ++ LF))
          (trace_of (run out net fs)).
Proof.
  intros H.
  destruct (success_details out net fs H)
    as (resp & progress & fsz & -> & Ht & _ & _ & _ & Hd & _).
  exists resp, fsz. repeat apply conj; auto.
  rewrite Ht. apply in_cons, in_or_app. right.
  apply in_cons, in_or_app. right.
  apply in_cons. unfold success_events. apply in_cons, in_eq.
Qed.

Lemma reported_file_size_witness :
  exists resp file_size,
    net_small = Responds resp
    /\ int_truediv (Z.of_nat (List.length (payload (reads resp)))) (1024 * 1024)
       = Ret file_size
    /\ In (EvPrint ("  File size: " ++ format_float 2 file_size ++ " MB" ++ LF))
          (trace_of (run utf8_stdout net_small fs_empty)).
Proof.
  apply (reported_file_size utf8_stdout net_small fs_empty).
  exists [("assets", Dir [("models", Dir [])])]. eexists. eexists.
  split; [reflexivity|]. vm_compute. reflexivity.
Defined.

End RunConsole.
